(** * Financial-statement analysis pipeline (src/python.py)

    A shallow embedding of the three data-processing functions of the
    application -- [process_financial_data], [calculate_financial_ratios],
    [get_ai_analysis] -- and of the result block of the script ([main]),
    followed by the properties the specification states about them.

    Modelling choices, all read off the source:
    - a spreadsheet cell is a whole number, another number, a text or an
      empty cell; what [pd.read_excel] yields has three columns, or another
      number of columns, on which line 39 raises;
    - a numeric column is an int64 column when every entry of it reads as a
      whole number, and a float64 column otherwise; int64 arithmetic wraps
      around, float64 arithmetic is IEEE-754 binary64 (Rocq's primitive
      floats); a whole number is taken in the int64 range, and one given
      outside it is reduced into it when it is read;
    - the processed table gives its two value columns by their float64
      values, which is what every later division, comparison and format
      sees;
    - the [.str] accessor raises on a label column that has rows and holds
      no text;
    - [st.secrets.get] returns the key, returns [None], or raises when the
      secrets cannot be read;
    - a Python [str] is represented by its UTF-8 encoding; case-insensitive
      search decodes it to code points first;
    - calls to Streamlit and the request to the Gemini endpoint are recorded
      in order, as a trace of [call]s; exceptions are values;
    - pandas' text parser and table printer, Python's number formatting,
      Unicode lower-casing and the remote Gemini endpoint are not code of the
      application: they are the fields of a [library] the model is
      parameterised by. *)

From Stdlib Require Import Floats ZArith NArith List String Ascii Bool Lia.
From Stdlib Require Import Uint63 DecimalString.
Import ListNotations.

Set Warnings "-inexact-float".

Local Open Scope string_scope.
Local Open Scope list_scope.

(** ** Text: UTF-8 decoding and case-insensitive search *)

Definition codepoint := N.

Definition bytes_of_string (s : string) : list N :=
  map N_of_ascii (list_ascii_of_string s).

(** Payload bits of a continuation byte. *)
Definition cont (b : N) : N := N.land b 63.

Fixpoint utf8_decode (bs : list N) : list codepoint :=
  match bs with
  | [] => []
  | b :: rest =>
      if (b <? 192)%N then b :: utf8_decode rest
      else if (b <? 224)%N then
        match rest with
        | b1 :: rest1 =>
            (N.shiftl (N.land b 31) 6 + cont b1)%N :: utf8_decode rest1
        | [] => [b]
        end
      else if (b <? 240)%N then
        match rest with
        | b1 :: b2 :: rest2 =>
            (N.shiftl (N.land b 15) 12 + N.shiftl (cont b1) 6 + cont b2)%N
              :: utf8_decode rest2
        | _ => b :: utf8_decode rest
        end
      else
        match rest with
        | b1 :: b2 :: b3 :: rest3 =>
            (N.shiftl (N.land b 7) 18 + N.shiftl (cont b1) 12
             + N.shiftl (cont b2) 6 + cont b3)%N :: utf8_decode rest3
        | _ => b :: utf8_decode rest
        end
  end.

Definition codepoints (s : string) : list codepoint :=
  utf8_decode (bytes_of_string s).

Section Search.

(** Lower-casing of one code point, as the regular-expression engine
    applies it under [case=False]. *)
Variable lower : codepoint -> codepoint.

Fixpoint match_here (pat txt : list codepoint) : bool :=
  match pat, txt with
  | [], _ => true
  | _ :: _, [] => false
  | p :: pat', c :: txt' => (lower p =? lower c)%N && match_here pat' txt'
  end.

Fixpoint search (pat txt : list codepoint) : bool :=
  match_here pat txt
  || match txt with
     | [] => false
     | _ :: txt' => search pat txt'
     end.

(** [re.search(pat, s, re.IGNORECASE)] for a pattern of literal
    characters. *)
Definition contains_ci (pat s : string) : bool :=
  search (codepoints pat) (codepoints s).

End Search.

(** ** Numbers *)

Local Open Scope float_scope.

(** The value both functions substitute for a zero denominator. *)
Definition EPS : float := 1e-9.

(** [x != 0] on float64: true for NaN, false for both signed zeros. *)
Definition nonzero (x : float) : bool := negb (PrimFloat.eqb x 0).

(** One element of [Series.replace(0, 1e-9)]. *)
Definition replace_zero (x : float) : float :=
  if PrimFloat.eqb x 0 then EPS else x.

(** [x or 1e-9] on a float64 scalar: a scalar is falsy exactly when it
    compares equal to zero. *)
Definition or_eps (x : float) : float :=
  if nonzero x then x else EPS.

(** One element of [Series.fillna(0)]. *)
Definition fillna0 (x : float) : float :=
  if PrimFloat.is_nan x then 0 else x.

(** The int64 value of an integer: arithmetic on int64 columns wraps
    around. *)
Definition wrap64 (z : Z) : Z := ((z + 2 ^ 63) mod 2 ^ 64 - 2 ^ 63)%Z.

(** The float64 value of an int64, rounded to nearest, ties to even. *)
Definition float_of_int64 (z : Z) : float :=
  if (z =? - 2 ^ 63)%Z then (-9223372036854775808)%float
  else if (z <? 0)%Z then (- PrimFloat.of_uint63 (Uint63.of_Z (- z)))%float
  else PrimFloat.of_uint63 (Uint63.of_Z z).

(** An element of a numeric column: of an int64 column or of a float64
    column. *)
Inductive number : Type :=
| NInt (z : Z)
| NFloat (x : float).

(** The element as float64: what a division, a comparison with zero or a
    format sees. An int64 is zero exactly when its float64 value is
    (lemma [float_of_int64_zero] below), so that the tests for zero of
    lines 49, 63-68 and 102-103 are made on this value. *)
Definition to_float (n : number) : float :=
  match n with
  | NInt z => float_of_int64 z
  | NFloat x => x
  end.

(** [a == 0] on an element of a numeric column. *)
Definition is_zero (a : number) : bool :=
  match a with
  | NInt z => (z =? 0)%Z
  | NFloat x => PrimFloat.eqb x 0
  end.

(** One element of [a - b] on two columns: int64 when both are. *)
Definition difference (a b : number) : number :=
  match a, b with
  | NInt x, NInt y => NInt (wrap64 (x - y))
  | _, _ => NFloat (to_float a - to_float b)
  end.

(** One element of [100 * a] on a column. *)
Definition times100 (a : number) : number :=
  match a with
  | NInt x => NInt (wrap64 (100 * x))
  | NFloat x => NFloat (100 * x)
  end.

(** ** Cells, rows and tables *)

(** A cell as [pd.read_excel] hands it over: a whole number (a Python
    [int], taken in the int64 range), another number (a [float], NaN
    included), a text, or nothing. *)
Inductive cell : Type :=
| CInt (z : Z)
| CNum (x : float)
| CText (s : string)
| CEmpty.

Definition is_text (c : cell) : bool :=
  match c with
  | CText _ => true
  | _ => false
  end.

(** A row of a sheet of three columns: label, prior year, following
    year. *)
Definition raw_row : Type := cell * cell * cell.

Definition label_cell (r : raw_row) : cell := fst (fst r).
Definition truoc_cell (r : raw_row) : cell := snd (fst r).
Definition sau_cell (r : raw_row) : cell := snd r.

(** A number of columns other than three. *)
Inductive other_than_three : Type :=
| NoColumn
| OneColumn
| TwoColumns
| FourOrMore (extra : nat).

Definition column_count (c : other_than_three) : nat :=
  match c with
  | NoColumn => 0
  | OneColumn => 1
  | TwoColumns => 2
  | FourOrMore extra => 4 + extra
  end.

(** What [pd.read_excel] returns: a table of three columns, or a table of
    another number of columns. *)
Inductive dataframe : Type :=
| Frame (rows : list raw_row)
| Misshapen (columns : other_than_three).

(** A row of the table [process_financial_data] returns; the fields are the
    six columns 'Chỉ tiêu', 'Năm trước', 'Năm sau', 'Tăng trưởng (%)',
    'Tỷ trọng Năm trước (%)' and 'Tỷ trọng Năm sau (%)'.  The two value
    columns are given by their float64 values. *)
Record row : Type := mk_row {
  chi_tieu : cell;
  nam_truoc : float;
  nam_sau : float;
  tang_truong : float;
  ty_trong_truoc : float;
  ty_trong_sau : float
}.

(** The table after the numeric columns were coerced and the growth column
    was added, before the share columns exist. *)
Record growth_row : Type := mk_growth_row {
  g_chi_tieu : cell;
  g_nam_truoc : number;
  g_nam_sau : number;
  g_tang_truong : float
}.

(** ** Exceptions and the trace of calls *)

Inductive exn_class : Type :=
| InvalidArgument
| ValueError
| IndexError
| KeyError
| AttributeError
| OtherException.

(** A raised exception: its class and the text [str(e)]. *)
Record exn : Type := mk_exn { exn_cls : exn_class; exn_str : string }.

Definition is_invalid_argument (e : exn) : bool :=
  match exn_cls e with InvalidArgument => true | _ => false end.

Definition is_value_error (e : exn) : bool :=
  match exn_cls e with ValueError => true | _ => false end.

Definition is_index_error (e : exn) : bool :=
  match exn_cls e with IndexError => true | _ => false end.

Definition is_index_or_key_error (e : exn) : bool :=
  match exn_cls e with IndexError | KeyError => true | _ => false end.

(** What [df.columns = [...]] of line 39 raises on a table of [n] columns,
    [n] being another number than 3. *)
Definition LENGTH_MISMATCH (n : nat) : exn :=
  mk_exn ValueError
         ("Length mismatch: Expected axis has "
          ++ NilZero.string_of_uint (Nat.to_uint n)
          ++ " elements, new values have 3 elements").

(** What the [.str] accessor raises on a column without text. *)
Definition ATTRIBUTE_ERROR : exn :=
  mk_exn AttributeError "Can only use .str accessor with string values!".

(** The values of the ratio dictionary: the placeholder text, a float64
    quotient, or the Python integer of the zero-denominator branch. *)
Inductive ratio_value : Type :=
| RText (s : string)
| RFloat (x : float)
| RInt (z : Z).

(** The dictionary [calculate_financial_ratios] returns; its two keys are
    fixed, 'Thanh toán hiện hành Năm trước' and 'Thanh toán hiện hành Năm
    sau'. *)
Record ratios : Type := mk_ratios {
  thanh_toan_truoc : ratio_value;
  thanh_toan_sau : ratio_value
}.

(** One call to Streamlit, or the request sent to the Gemini endpoint (its
    key, model name and prompt). *)
Inductive call : Type :=
| st_error (msg : string)
| st_warning (msg : string)
| st_info (msg : string)
| st_subheader (title : string)
| st_dataframe (df : list row)
| st_divider
| st_button (label : string)
| st_spinner (text : string)
| st_columns (n : nat)
| st_metric (label value : string)
| st_markdown (body : string)
| st_tabs (names : list string)
| st_plotly_chart (pie_data : list row)
| st_bar_chart (data : list (cell * list float))
| genai_generate_content (api_key model prompt : string).

(** The five columns of the table that the prompt embeds. *)
Definition prompt_row : Type := cell * float * float * float * float.

(** ** The libraries the application calls *)

Record library : Type := mk_library {
  (** Unicode lower-casing used by case-insensitive matching. *)
  unicode_lower : codepoint -> codepoint;
  (** [pd.to_numeric] on a text cell: the whole number or the other number
      read, or [None] when the text is not a number (with
      [errors='coerce'] the entry then becomes NaN). *)
  to_numeric_text : string -> option number;
  (** [Series.mean()]. *)
  series_mean : list float -> float;
  (** [format(x, spec)] on a float and on an integer. *)
  format_float : string -> float -> string;
  format_int : string -> Z -> string;
  (** [DataFrame.to_markdown(index=False)]. *)
  to_markdown : list prompt_row -> string;
  (** [GenerativeModel(model).generate_content(prompt).text] under the
      configured key: the answer text, or the exception raised. *)
  generate_content : string -> string -> string -> exn + string
}.

(** ** Messages and patterns of the source *)

Definition MSG_MISSING_TOTALS : string :=
  "Lỗi: Không tìm thấy dòng 'Tổng cộng tài sản' hoặc 'Tổng cộng nguồn vốn' trong file. Vui lòng kiểm tra lại cấu trúc file Excel.".

Definition MSG_MISSING_SHORT_TERM : string :=
  "⚠️ Cảnh báo: Thiếu chỉ tiêu 'Tài sản ngắn hạn' hoặc 'Nợ ngắn hạn' để tính toán đầy đủ các chỉ số.".

Definition MSG_TOO_FEW_ROWS : string :=
  "⚠️ Cảnh báo: Dữ liệu trong file Excel không đủ để tính các chỉ số tài chính.".

Definition MSG_RATIO_FAILURE (e : exn) : string :=
  "Lỗi không xác định khi tính toán chỉ số: " ++ exn_str e.

Definition MSG_INVALID_KEY : string :=
  "❌ Lỗi API Key: API Key của Sếp không hợp lệ hoặc đã hết hạn. Vui lòng kiểm tra lại trong phần Secrets của Streamlit.".

Definition MSG_AI_FAILURE (e : exn) : string :=
  "⚠️ Đã có lỗi xảy ra khi kết nối đến Gemini AI: " ++ exn_str e.

Definition MSG_NO_KEY : string :=
  "Sếp ơi, chưa có 'GEMINI_API_KEY' trong phần Secrets của Streamlit. Em không thể kết nối với AI được.".

Definition MSG_STRUCTURE (ve : exn) : string :=
  "❌ Lỗi cấu trúc dữ liệu: " ++ exn_str ve
  ++ ". Sếp vui lòng kiểm tra lại file Excel.".

Definition MSG_UNEXPECTED (e : exn) : string :=
  "⚠️ Có lỗi không mong muốn xảy ra: " ++ exn_str e
  ++ ". Sếp thử kiểm tra lại định dạng file nhé.".

(** The alternatives of 'TỔNG CỘNG TÀI SẢN|TỔNG TÀI SẢN'. *)
Definition PAT_TONG_TAI_SAN : list string :=
  ["TỔNG CỘNG TÀI SẢN"; "TỔNG TÀI SẢN"].

(** The alternatives of 'TỔNG CỘNG NGUỒN VỐN|TỔNG NGUỒN VỐN'. *)
Definition PAT_TONG_NGUON_VON : list string :=
  ["TỔNG CỘNG NGUỒN VỐN"; "TỔNG NGUỒN VỐN"].

Definition PAT_TSNH : list string := ["TÀI SẢN NGẮN HẠN"].

Definition PAT_NO_NH : list string := ["NỢ NGẮN HẠN"].

Definition NA : ratio_value := RText "N/A".

(** ** The prompt template of [get_ai_analysis] *)

(** The text of the prompt template up to the table. *)
Definition PROMPT_HEAD : string :=
  "
        Với vai trò là một chuyên gia phân tích tài chính cấp cao, hãy dựa vào các dữ liệu sau đây để đưa ra một bản phân tích chi tiết về tình hình tài chính của doanh nghiệp.

        Bản phân tích cần có cấu trúc rõ ràng, chuyên nghiệp và dễ hiểu, bao gồm các phần sau:
        1.  **Đánh giá tổng quan:** Nhận xét chung về sức khỏe tài chính của doanh nghiệp trong kỳ phân tích.
        2.  **Phân tích về quy mô và tăng trưởng:** Dựa vào sự biến động của Tổng tài sản, Doanh thu, và Lợi nhuận.
        3.  **Phân tích về cơ cấu tài sản và nguồn vốn:** Nhận xét về sự thay đổi trong tỷ trọng các khoản mục chính (VD: tài sản ngắn hạn, nợ phải trả).
        4.  **Phân tích về khả năng thanh toán:** Dựa vào các chỉ số thanh toán đã được tính toán.
        5.  **Kết luận và đề xuất (nếu có):** Tóm tắt những điểm mạnh, điểm yếu và đưa ra một vài gợi ý.

        **DỮ LIỆU ĐẦU VÀO:**

        **1. Bảng phân tích tăng trưởng và tỷ trọng:**
        ".

(** From the table to the first ratio. *)
Definition PROMPT_RATIO_TRUOC : string :=
  "

        **2. Các chỉ số tài chính quan trọng:**
        - Hệ số thanh toán hiện hành năm trước: ".

(** From the first ratio to the second. *)
Definition PROMPT_RATIO_SAU : string :=
  "
        - Hệ số thanh toán hiện hành năm sau: ".

(** After the second ratio. *)
Definition PROMPT_TAIL : string :=
  "

        Hãy trình bày kết quả phân tích một cách mạch lạc, sử dụng các thuật ngữ tài chính chính xác.
        ".

Definition MODEL_NAME : string := "gemini-1.5-flash-latest".

(** ** Effects: a trace of calls, and an exception or a value *)

Definition ui (A : Type) : Type := list call * (exn + A).

Definition ret {A : Type} (x : A) : ui A := ([], inr x).

Definition bind {A B : Type} (m : ui A) (k : A -> ui B) : ui B :=
  match m with
  | (t, inl e) => (t, inl e)
  | (t, inr x) => let '(t', r) := k x in (t ++ t', r)
  end.

Definition emit (c : call) : ui unit := ([c], inr tt).

Definition raise {A : Type} (e : exn) : ui A := ([], inl e).

(** The calls made stay in the trace; of a [result] only the outcome. *)
Definition lift {A : Type} (r : exn + A) : ui A := ([], r).

Definition traced {A : Type} (m : list call * A) : ui A :=
  (fst m, inr (snd m)).

(** [try: m except <handles>: handler(e)]. *)
Definition try_except {A : Type} (m : ui A) (handles : exn -> bool)
           (handler : exn -> ui A) : ui A :=
  match m with
  | (t, inl e) =>
      if handles e then let '(t', r) := handler e in (t ++ t', r)
      else (t, inl e)
  | (t, inr x) => (t, inr x)
  end.

Declare Scope ui_scope.
Delimit Scope ui_scope with ui.
Notation "x <- m ;; k" := (bind m (fun x => k))
  (at level 100, m at next level, right associativity) : ui_scope.
Notation "m ;; k" := (bind m (fun _ => k))
  (at level 100, right associativity) : ui_scope.

(** [Series.iloc[0]]. *)
Definition iloc0 {A : Type} (s : list A) : exn + A :=
  match s with
  | x :: _ => inr x
  | [] => inl (mk_exn IndexError "single positional indexer is out-of-bounds")
  end.

(** One element of [Series.isin(names)]. *)
Definition isin (names : list string) (c : cell) : bool :=
  match c with
  | CText s => existsb (String.eqb s) names
  | _ => false
  end.

(** Truth value of an optional text: [None] and the empty text are falsy. *)
Definition truthy (s : option string) : bool :=
  match s with
  | Some EmptyString | None => false
  | Some _ => true
  end.

(** The [.str] accessor on a column: it raises on a column that has rows
    and holds no text (a numeric column). *)
Definition str_accessor (column : list cell) : exn + unit :=
  match column with
  | [] => inr tt
  | _ :: _ => if existsb is_text column then inr tt else inl ATTRIBUTE_ERROR
  end.

Section Pipeline.

Variable L : library.

Local Open Scope ui_scope.

(** *** process_financial_data *)

(** What [pd.to_numeric] reads in one cell, if anything. *)
Definition read_number (c : cell) : option number :=
  match c with
  | CInt z => Some (NInt (wrap64 z))
  | CNum x => Some (NFloat x)
  | CText s =>
      match to_numeric_text L s with
      | Some (NInt z) => Some (NInt (wrap64 z))
      | Some (NFloat x) => Some (NFloat x)
      | None => None
      end
  | CEmpty => None
  end.

Definition is_whole (c : cell) : bool :=
  match read_number c with
  | Some (NInt _) => true
  | _ => false
  end.

(** The column [pd.to_numeric(column, errors='coerce')] is an int64
    column: every entry reads as a whole number. *)
Definition is_int64 (column : list cell) : bool := forallb is_whole column.

(** One element of [pd.to_numeric(column, errors='coerce').fillna(0)],
    [int64] telling the type of the column: in a float64 column a whole
    number is its float64 value, what does not read as a number is NaN,
    and NaN becomes 0. *)
Definition coerce (int64 : bool) (c : cell) : number :=
  match read_number c with
  | Some (NInt z) => if int64 then NInt z else NFloat (float_of_int64 z)
  | Some (NFloat x) => NFloat (fillna0 x)
  | None => NFloat 0
  end.

(** One element of the coerced column 'Năm trước' of the sheet [df]. *)
Definition coerce_truoc (df : list raw_row) (c : cell) : number :=
  coerce (is_int64 (map truoc_cell df)) c.

(** One element of the coerced column 'Năm sau' of the sheet [df]. *)
Definition coerce_sau (df : list raw_row) (c : cell) : number :=
  coerce (is_int64 (map sau_cell df)) c.

(** [(sau - truoc) / truoc.replace(0, 1e-9)] on one row: the difference in
    the type of the columns, the quotient in float64. *)
Definition growth_quotient (truoc sau : number) : float :=
  to_float (difference sau truoc) / replace_zero (to_float truoc).

(** One element of the column 'Tăng trưởng (%)'. *)
Definition growth_pct (truoc sau : number) : float :=
  growth_quotient truoc sau * 100.

(** One element of [df['Chỉ tiêu'].str.contains(pat, case=False,
    na=False)], [pat] being the alternation of the literals [pats]: a
    cell that is not a text yields the [na] value. *)
Definition str_contains (pats : list string) (c : cell) : bool :=
  match c with
  | CText s => existsb (fun p => contains_ci (unicode_lower L) p s) pats
  | _ => false
  end.

(** Lines 39-50: the three columns, the numeric ones coerced, and the
    growth column. *)
Definition with_growth (df : list raw_row) : list growth_row :=
  map (fun r : raw_row =>
         let truoc := coerce_truoc df (truoc_cell r) in
         let sau := coerce_sau df (sau_cell r) in
         mk_growth_row (label_cell r) truoc sau (growth_pct truoc sau))
      df.

(** The share columns of lines 71-72, both over the total-assets values:
    the product in the type of the column, the quotient in float64. *)
Definition with_shares (tong_tai_san_truoc tong_tai_san_sau : float)
           (r : growth_row) : row :=
  mk_row (g_chi_tieu r) (to_float (g_nam_truoc r)) (to_float (g_nam_sau r))
         (g_tang_truong r)
         (to_float (times100 (g_nam_truoc r)) / tong_tai_san_truoc)
         (to_float (times100 (g_nam_sau r)) / tong_tai_san_sau).

Definition process_financial_data (df : dataframe)
  : ui (option (list row)) :=
  match df with
  | Misshapen columns => raise (LENGTH_MISMATCH (column_count columns))
  | Frame rows =>
      let df := with_growth rows in
      lift (str_accessor (map g_chi_tieu df)) ;;
      let tong_tai_san_row :=
        filter (fun r => str_contains PAT_TONG_TAI_SAN (g_chi_tieu r)) df in
      let tong_nguon_von_row :=
        filter (fun r => str_contains PAT_TONG_NGUON_VON (g_chi_tieu r)) df in
      match tong_tai_san_row, tong_nguon_von_row with
      | ts :: _, nv :: _ =>
          let tong_tai_san_truoc := or_eps (to_float (g_nam_truoc ts)) in
          let tong_tai_san_sau := or_eps (to_float (g_nam_sau ts)) in
          let tong_nguon_von_truoc := or_eps (to_float (g_nam_truoc nv)) in
          let tong_nguon_von_sau := or_eps (to_float (g_nam_sau nv)) in
          ret (Some (map (with_shares tong_tai_san_truoc tong_tai_san_sau)
                         df))
      | _, _ =>
          emit (st_error MSG_MISSING_TOTALS) ;;
          ret None
      end
  end.

(** *** calculate_financial_ratios *)

(** [a / b if b != 0 else 0]. *)
Definition current_ratio (a b : float) : ratio_value :=
  if nonzero b then RFloat (a / b) else RInt 0.

(** The body of the [try], lines 87-103; [placeholders] is the dictionary
    of lines 82-85, which line 93 returns as it is. *)
Definition ratios_of (df : list row) (placeholders : ratios) : ui ratios :=
  lift (str_accessor (map chi_tieu df)) ;;
  let tsnh_row := filter (fun r => str_contains PAT_TSNH (chi_tieu r)) df in
  let no_nh_row := filter (fun r => str_contains PAT_NO_NH (chi_tieu r)) df in
  match tsnh_row, no_nh_row with
  | ts :: _, no :: _ =>
      let tsnh_truoc := nam_truoc ts in
      let tsnh_sau := nam_sau ts in
      let no_nh_truoc := nam_truoc no in
      let no_nh_sau := nam_sau no in
      ret (mk_ratios (current_ratio tsnh_truoc no_nh_truoc)
                     (current_ratio tsnh_sau no_nh_sau))
  | _, _ =>
      emit (st_warning MSG_MISSING_SHORT_TERM) ;;
      ret placeholders
  end.

(** Both handlers fall through to the [return ratios] of line 110, the
    dictionary still holding the placeholders. *)
Definition calculate_financial_ratios (df : list row)
  : list call * ratios :=
  let ratios := mk_ratios NA NA in
  let '(trace, result) :=
    try_except
      (try_except (ratios_of df ratios)
         is_index_error
         (fun _ => emit (st_warning MSG_TOO_FEW_ROWS) ;; ret ratios))
      (fun _ => true)
      (fun e => emit (st_error (MSG_RATIO_FAILURE e)) ;; ret ratios) in
  (trace, match result with
          | inr computed => computed
          | inl _ => ratios
          end).

End Pipeline.

Section Application.

Variable L : library.

Local Open Scope ui_scope.

(** *** get_ai_analysis *)

(** [f"{v:.2f}"] on a value of the ratio dictionary: a text has no
    format code 'f'. *)
Definition format_ratio (v : ratio_value) : exn + string :=
  match v with
  | RText _ =>
      inl (mk_exn ValueError
                  "Unknown format code 'f' for object of type 'str'")
  | RFloat x => inr (format_float L ".2f" x)
  | RInt z => inr (format_int L ".2f" z)
  end.

(** The columns the prompt selects: 'Chỉ tiêu', 'Năm trước', 'Năm sau',
    'Tăng trưởng (%)', 'Tỷ trọng Năm sau (%)'. *)
Definition prompt_columns (r : row) : prompt_row :=
  (chi_tieu r, nam_truoc r, nam_sau r, tang_truong r, ty_trong_sau r).

(** The f-string of lines 125-145, its fields evaluated in order. *)
Definition build_prompt (data_df : list row) (ratios : ratios)
  : exn + string :=
  let table := to_markdown L (map prompt_columns data_df) in
  match format_ratio (thanh_toan_truoc ratios) with
  | inl e => inl e
  | inr truoc =>
      match format_ratio (thanh_toan_sau ratios) with
      | inl e => inl e
      | inr sau =>
          inr (PROMPT_HEAD ++ table ++ PROMPT_RATIO_TRUOC ++ truoc
               ++ PROMPT_RATIO_SAU ++ sau ++ PROMPT_TAIL)%string
      end
  end.

(** The two handlers of lines 150-155. *)
Definition ai_handler (e : exn) : ui (option string) :=
  if is_invalid_argument e
  then (emit (st_error MSG_INVALID_KEY) ;; ret None)
  else (emit (st_error (MSG_AI_FAILURE e)) ;; ret None).

(** [genai.configure] and the [GenerativeModel] constructor only record
    the key and the model name; the request is made by
    [generate_content]. *)
Definition get_ai_analysis (data_df : list row) (ratios : ratios)
           (api_key : string) : ui (option string) :=
  try_except
    (prompt <- lift (build_prompt data_df ratios) ;;
     emit (genai_generate_content api_key MODEL_NAME prompt) ;;
     text <- lift (generate_content L api_key MODEL_NAME prompt) ;;
     ret (Some text))
    (fun _ => true)
    ai_handler.

(** *** The result block of the script (lines 178-278) *)

Definition column_of (pats : list string) (col : row -> float)
           (df : list row) : list float :=
  map col (filter (fun r => str_contains L pats (chi_tieu r)) df).

(** Lines 223-232. The [.str] accessor of lines 224-226 raises on its
    first use or on none; its [AttributeError] is not among the exceptions
    the handler takes. *)
Definition headline_metrics (df : list row) : ui unit :=
  try_except
    (lift (str_accessor (map chi_tieu df)) ;;
     tts_sau <- lift (iloc0 (column_of PAT_TONG_TAI_SAN nam_sau df)) ;;
     dt_sau <- lift (iloc0 (column_of ["Doanh thu bán hàng"] nam_sau df)) ;;
     ln_sau <- lift (iloc0 (column_of ["Lợi nhuận sau thuế"] nam_sau df)) ;;
     emit (st_metric "Tổng tài sản (Năm sau)"
                     (format_float L ",.0f" tts_sau ++ " VNĐ")) ;;
     emit (st_metric "Doanh thu (Năm sau)"
                     (format_float L ",.0f" dt_sau ++ " VNĐ")) ;;
     emit (st_metric "Lợi nhuận sau thuế (Năm sau)"
                     (format_float L ",.0f" ln_sau ++ " VNĐ")))
    is_index_or_key_error
    (fun _ =>
       emit (st_warning
               "Không thể hiển thị đầy đủ dashboard do thiếu một số chỉ tiêu quan trọng.")).

(** Lines 235-238; the [.str] accessor is used on lines 236 and 237. *)
Definition ratio_metrics (df : list row) (ratios : ratios) : ui unit :=
  emit (st_columns 3) ;;
  lift (str_accessor (map chi_tieu df)) ;;
  emit (st_metric "Tăng trưởng DT TB (%)"
          (format_float L ".2f"
             (series_mean L (column_of ["Doanh thu"] tang_truong df))
           ++ "%")) ;;
  tsnh <- lift (iloc0 (column_of PAT_TSNH ty_trong_sau df)) ;;
  emit (st_metric "Tỷ trọng TSNH (%)" (format_float L ".2f" tsnh ++ "%")) ;;
  hh <- lift (format_ratio (thanh_toan_sau ratios)) ;;
  emit (st_metric "Hệ số thanh toán HH" hh).

(** Lines 245-269. *)
Definition charts (df : list row) : ui unit :=
  emit st_divider ;;
  emit (st_subheader "Bảng 3: Trực quan hóa dữ liệu") ;;
  emit (st_tabs ["Cơ cấu tài sản"; "Tăng trưởng"; "So sánh giá trị"]) ;;
  emit (st_markdown "##### Cơ cấu tài sản năm sau") ;;
  (let pie_data :=
     filter (fun r => isin ["Tiền và các khoản tương đương tiền";
                            "Hàng tồn kho";
                            "Các khoản phải thu ngắn hạn";
                            "Tài sản cố định"] (chi_tieu r)) df in
   match pie_data with
   | _ :: _ => emit (st_plotly_chart pie_data)
   | [] => emit (st_info "Không đủ dữ liệu chi tiết để vẽ biểu đồ cơ cấu.")
   end) ;;
  emit (st_markdown "##### Tốc độ tăng trưởng các chỉ tiêu chính") ;;
  (let growth_data :=
     filter (fun r => PrimFloat.ltb 0 (PrimFloat.abs (tang_truong r))) df in
   emit (st_bar_chart
           (map (fun r => (chi_tieu r, [tang_truong r])) growth_data))) ;;
  emit (st_markdown "##### So sánh giá trị Năm trước - Năm sau") ;;
  (let comparison_data :=
     filter (fun r => isin ["TỔNG CỘNG TÀI SẢN";
                            "NỢ PHẢI TRẢ";
                            "VỐN CHỦ SỞ HỮU";
                            "Doanh thu bán hàng và cung cấp dịch vụ";
                            "Lợi nhuận sau thuế thu nhập doanh nghiệp"]
                           (chi_tieu r)) df in
   emit (st_bar_chart
           (map (fun r => (chi_tieu r, [nam_truoc r; nam_sau r]))
                comparison_data))).

(** Lines 218-269, run when [ai_result] is truthy. *)
Definition dashboard (df : list row) (ratios : ratios) (ai_result : string)
  : ui unit :=
  emit (st_subheader "Bảng 2: Dashboard các chỉ số chính") ;;
  emit (st_columns 3) ;;
  headline_metrics df ;;
  ratio_metrics df ratios ;;
  emit (st_subheader "Nhận định từ Trợ lý AI") ;;
  emit (st_markdown ai_result) ;;
  charts df.

(** Lines 202-269: the AI section. [secret] is what
    [st.secrets.get("GEMINI_API_KEY")] does: the value, [None] when the
    secrets hold no such key, or the exception it raises when there are no
    secrets at all; [clicked] is what [st.button] returns. *)
Definition ai_section (df : list row) (ratios : ratios)
           (secret : exn + option string) (clicked : bool) : ui unit :=
  emit st_divider ;;
  emit (st_subheader "🤖 Phân tích Chuyên sâu từ Trợ lý AI") ;;
  api_key <- lift secret ;;
  match api_key with
  | Some (String _ _ as api_key) =>
      emit (st_button "Yêu cầu AI phân tích ngay!") ;;
      if clicked then
        emit (st_spinner "⏳ Em đang phân tích dữ liệu, Sếp chờ chút nhé...") ;;
        ai_result <- get_ai_analysis df ratios api_key ;;
        match ai_result with
        | Some (String _ _ as text) => dashboard df ratios text
        | _ => ret tt
        end
      else ret tt
  | _ => emit (st_error MSG_NO_KEY)
  end.

(** Lines 180-269: the body of the outer [try], given what
    [pd.read_excel] produced. *)
Definition analyse (read_excel : exn + dataframe)
           (secret : exn + option string) (clicked : bool) : ui unit :=
  df_raw <- lift read_excel ;;
  df_processed <- process_financial_data L df_raw ;;
  match df_processed with
  | Some df_processed =>
      emit (st_subheader "Bảng 1: Phân tích Tăng trưởng & Tỷ trọng") ;;
      emit (st_dataframe df_processed) ;;
      ratios <- traced (calculate_financial_ratios L df_processed) ;;
      ai_section df_processed ratios secret clicked
  | None => ret tt
  end.

(** Lines 178-278. [uploaded_file] is [None] when no file was uploaded,
    and otherwise the outcome of reading it. *)
Definition main (uploaded_file : option (exn + dataframe))
           (secret : exn + option string) (clicked : bool) : list call :=
  match uploaded_file with
  | Some read_excel =>
      fst (try_except
             (try_except (analyse read_excel secret clicked)
                is_value_error
                (fun ve => emit (st_error (MSG_STRUCTURE ve))))
             (fun _ => true)
             (fun e => emit (st_error (MSG_UNEXPECTED e))))
  | None =>
      [st_info "👋 Chào Sếp! Vui lòng tải lên file Excel từ thanh bên để em bắt đầu phân tích."]
  end.

End Application.

(** ** Vocabulary of the statements *)

Section Vocabulary.

Variable L : library.

(** One row of [with_growth] on the sheet [df]. *)
Definition coerce_row (df : list raw_row) (r : raw_row) : growth_row :=
  mk_growth_row (label_cell r)
                (coerce_truoc L df (truoc_cell r))
                (coerce_sau L df (sau_cell r))
                (growth_pct (coerce_truoc L df (truoc_cell r))
                            (coerce_sau L df (sau_cell r))).

(** The label of a raw row matches one of the literals [pats]. *)
Definition raw_matches (pats : list string) (r : raw_row) : bool :=
  str_contains L pats (label_cell r).

(** The first row of the uploaded sheet whose label matches. *)
Definition first_raw (pats : list string) (df : list raw_row)
  : option raw_row :=
  find (raw_matches pats) df.

(** The first row of a processed table whose label matches. *)
Definition first_row (pats : list string) (df : list row) : option row :=
  find (fun r => str_contains L pats (chi_tieu r)) df.

(** An entry that [pd.to_numeric] cannot read as a number: an empty cell,
    a NaN, or a text that is not a number. *)
Definition not_a_number (c : cell) : bool :=
  match read_number L c with
  | Some (NInt _) => false
  | Some (NFloat x) => PrimFloat.is_nan x
  | None => true
  end.

End Vocabulary.

(** [z] lies in the int64 range. *)
Definition in_int64 (z : Z) : bool :=
  ((- 2 ^ 63 <=? z) && (z <? 2 ^ 63))%Z.

(** [100 * a] is formed without leaving the number type of the column:
    always in a float64 column, and in an int64 column when the product
    lies in the int64 range. *)
Definition times100_fits (a : number) : bool :=
  match a with
  | NInt z => in_int64 (100 * z)
  | NFloat _ => true
  end.


(** A spec float that is neither a zero nor a NaN. *)
Definition SFnonzero (s : spec_float) : Prop :=
  match s with
  | S754_finite _ _ _ | S754_infinity _ => True
  | _ => False
  end.

(** The message of the outer handler that catches [e]. *)
Definition outer_message (e : exn) : string :=
  if is_value_error e then MSG_STRUCTURE e else MSG_UNEXPECTED e.

Definition sum_floats (xs : list float) : float :=
  fold_left PrimFloat.add xs 0.



Definition is_request (c : call) : bool :=
  match c with genai_generate_content _ _ _ => true | _ => false end.

(** The prompts of the requests of a trace, in order. *)
Definition prompts_sent (t : list call) : list string :=
  flat_map (fun c => match c with
                     | genai_generate_content _ _ prompt => [prompt]
                     | _ => []
                     end) t.

(** A call that shows a table, a metric, a chart or the narrative, or
    contacts the endpoint. *)
Definition renders_or_requests (c : call) : bool :=
  match c with
  | st_dataframe _ | st_metric _ _ | st_markdown _ | st_tabs _
  | st_plotly_chart _ | st_bar_chart _ | genai_generate_content _ _ _ => true
  | _ => false
  end.

(** The requests of a trace, in order. *)
Definition requests (t : list call) : list call := filter is_request t.

Definition is_error (c : call) : bool :=
  match c with st_error _ => true | _ => false end.

(** A call of the dashboard block (lines 218-269): a tile, the narrative,
    the tabs or a chart. *)
Definition is_dashboard_call (c : call) : bool :=
  match c with
  | st_metric _ _ | st_markdown _ | st_tabs _
  | st_plotly_chart _ | st_bar_chart _ => true
  | _ => false
  end.

(** The computation ends with a value, not an exception. *)
Definition returns {A : Type} (m : ui A) : Prop :=
  exists x : A, snd m = inr x.

(** The computation sends no request. *)
Definition silent {A : Type} (m : ui A) : Prop := requests (fst m) = [].

(** The computation makes no call of the dashboard block. *)
Definition plain {A : Type} (m : ui A) : Prop :=
  existsb is_dashboard_call (fst m) = false.

(** The message either handler of [get_ai_analysis] shows for [e]. *)
Definition ai_failure_message (e : exn) : string :=
  if is_invalid_argument e then MSG_INVALID_KEY else MSG_AI_FAILURE e.

Definition AI_HEADING : list call :=
  [st_divider; st_subheader "🤖 Phân tích Chuyên sâu từ Trợ lý AI"].

Definition AI_BUTTON : list call :=
  [st_button "Yêu cầu AI phân tích ngay!";
   st_spinner "⏳ Em đang phân tích dữ liệu, Sếp chờ chút nhé..."].

(** The row with another value in the column 'Tỷ trọng Năm trước (%)'. *)
Definition with_ty_trong_truoc (x : float) (r : row) : row :=
  mk_row (chi_tieu r) (nam_truoc r) (nam_sau r) (tang_truong r) x
         (ty_trong_sau r).

(** A ratio of one period is sound for the values [a] and [b]: the integer
    0 when [b] is zero, and otherwise the quotient of two numbers of which
    neither is a NaN and the divisor is not zero. *)
Definition sound_ratio (a b : float) (v : ratio_value) : Prop :=
  (PrimFloat.eqb b 0 = true /\ v = RInt 0)
  \/ (PrimFloat.eqb b 0 = false
      /\ PrimFloat.is_nan a = false
      /\ PrimFloat.is_nan b = false
      /\ v = RFloat (a / b)).

(** A call that shows the narrative or contacts the endpoint. *)
Definition narrative_or_request (c : call) : bool :=
  match c with
  | st_markdown _ | genai_generate_content _ _ _ => true
  | _ => false
  end.

(** What the AI section shows once its heading is out, when the request
    cannot be made or is not asked for. *)
Definition ai_section_without_answer (secret : option string)
           (clicked : bool) (failure : list call) : list call :=
  match secret with
  | Some (String _ _) =>
      st_button "Yêu cầu AI phân tích ngay!"
        :: (if clicked
            then st_spinner "⏳ Em đang phân tích dữ liệu, Sếp chờ chút nhé..."
                   :: failure
            else [])
  | _ => [st_error MSG_NO_KEY]
  end.

(** The same libraries with another endpoint behind [generate_content]. *)
Definition with_endpoint (L : library)
           (endpoint : string -> string -> string -> exn + string) : library :=
  mk_library (unicode_lower L) (to_numeric_text L) (series_mean L)
             (format_float L) (format_int L) (to_markdown L) endpoint.

(** The exception [format_ratio] raises on the placeholder. *)
Definition FORMAT_ERROR : exn :=
  mk_exn ValueError "Unknown format code 'f' for object of type 'str'".

(** ** A concrete instance of the libraries, for worked examples *)

Module Sample.

(** Lower-casing on Basic Latin, Latin-1 and the Latin Extended
    Additional block (the Vietnamese letters of the patterns). *)
Definition lower (c : codepoint) : codepoint :=
  if ((65 <=? c) && (c <=? 90))%N then (c + 32)%N
  else if ((192 <=? c) && (c <=? 222) && negb (c =? 215))%N then (c + 32)%N
  else if ((7680 <=? c) && (c <=? 7935) && N.even c)%N then (c + 1)%N
  else c.

Fixpoint digits (s : string) (acc : Z) : option Z :=
  match s with
  | EmptyString => Some acc
  | String a s' =>
      let d := Z.of_N (N_of_ascii a) in
      if ((48 <=? d) && (d <=? 57))%Z
      then digits s' (10 * acc + (d - 48))%Z
      else None
  end.

(** Reads a non-empty run of decimal digits as a whole number. *)
Definition parse (s : string) : option number :=
  match s with
  | EmptyString => None
  | _ => option_map NInt (digits s 0%Z)
  end.

Definition mean (xs : list float) : float :=
  sum_floats xs / PrimFloat.of_uint63 (Uint63.of_Z (Z.of_nat (List.length xs))).

Definition show_Z (z : Z) : string := NilZero.string_of_int (Z.to_int z).

(** The integer part of a finite number. *)
Definition trunc (x : float) : Z :=
  match Prim2SF x with
  | S754_finite s m e =>
      let a := if (0 <=? e)%Z then (Z.pos m * 2 ^ e)%Z
               else (Z.pos m / 2 ^ (- e))%Z in
      if s then (- a)%Z else a
  | _ => 0%Z
  end.

(** Stand-ins for the printers: the integer part in decimal. *)
Definition format_float (spec : string) (x : float) : string :=
  show_Z (trunc x).

Definition format_int (spec : string) (z : Z) : string := show_Z z.

Definition label_text (c : cell) : string :=
  match c with
  | CText s => s
  | _ => ""
  end.

Definition to_markdown (t : list prompt_row) : string :=
  String.concat "|"
    (map (fun r : prompt_row =>
            let '(label, truoc, sau, growth, share) := r in
            (label_text label ++ ":" ++ format_float "" truoc
             ++ ":" ++ format_float "" sau)%string) t).

(** An endpoint that accepts one key and rejects every other. *)
Definition endpoint (api_key model prompt : string) : exn + string :=
  if String.eqb api_key "valid-key"
  then inr "Doanh nghiệp có tình hình tài chính ổn định."
  else inl (mk_exn InvalidArgument "400 API key not valid.").

(** An endpoint that cannot be reached. *)
Definition offline (api_key model prompt : string) : exn + string :=
  inl (mk_exn OtherException "503 Service Unavailable").

Definition lib : library :=
  mk_library lower parse mean format_float format_int to_markdown endpoint.

(** What [st.secrets.get] raises when there are no secrets. *)
Definition no_secrets : exn :=
  mk_exn OtherException "No secrets found.".

(** A small balance sheet: two asset rows and their total, two
    liability rows and their total. *)
Definition balance_sheet : list raw_row :=
  [ (CText "TÀI SẢN NGẮN HẠN", CInt 60, CInt 150);
    (CText "TÀI SẢN DÀI HẠN", CInt 40, CInt 50);
    (CText "TỔNG CỘNG TÀI SẢN", CInt 100, CInt 200);
    (CText "NỢ NGẮN HẠN", CInt 30, CInt 0);
    (CText "VỐN CHỦ SỞ HỮU", CInt 70, CInt 200);
    (CText "Tổng cộng nguồn vốn", CInt 100, CInt 200) ].

(** A sheet without the total-assets row, with unreadable entries. *)
Definition no_total_assets : list raw_row :=
  [ (CText "Hàng tồn kho", CText "n/a", CEmpty);
    (CText "TỔNG CỘNG NGUỒN VỐN", CText "100", CInt 200) ].

(** A sheet with both totals and no short-term row. *)
Definition totals_only : list raw_row :=
  [ (CText "Doanh thu bán hàng", CInt 0, CInt 5000);
    (CText "tổng tài sản", CInt 0, CText "250");
    (CText "TỔNG NGUỒN VỐN", CEmpty, CInt 250) ].

(** A sheet whose label column holds numbers only. *)
Definition numeric_labels : list raw_row :=
  [ (CInt 1, CInt 2, CInt 3) ].

(** A sheet of whole numbers, the first row going from -5e18 to 5e18. *)
Definition large_whole : list raw_row :=
  [ (CText "Chênh lệch tỷ giá",
     CInt (-5000000000000000000), CInt 5000000000000000000);
    (CText "TỔNG CỘNG TÀI SẢN", CInt 100, CInt 200);
    (CText "TỔNG CỘNG NGUỒN VỐN", CInt 100, CInt 200) ].

(** The same sheet with one value that is not whole in either column, so
    that both columns are float64. *)
Definition large_float : list raw_row :=
  [ (CText "Chênh lệch tỷ giá",
     CInt (-5000000000000000000), CInt 5000000000000000000);
    (CText "TỔNG CỘNG TÀI SẢN", CNum 100.5, CNum 200.5);
    (CText "TỔNG CỘNG NGUỒN VỐN", CInt 100, CInt 200) ].

Definition processed (df : list raw_row) : list row :=
  match snd (process_financial_data lib (Frame df)) with
  | inr (Some rows) => rows
  | _ => []
  end.

(** The table [process_financial_data] returns on [totals_only]. *)
Definition totals_only_processed : list row :=
  Eval vm_compute in processed totals_only.

(** The table [process_financial_data] returns on [balance_sheet]. *)
Definition balance_sheet_processed : list row :=
  Eval vm_compute in processed balance_sheet.

(** An endpoint that answers with an empty text. *)
Definition mute (api_key model prompt : string) : exn + string := inr "".

Definition balance_sheet_ratios : ratios := mk_ratios (RFloat 2) (RInt 0).

(** The prompt built for [balance_sheet]. *)
Definition balance_sheet_prompt : string :=
  Eval vm_compute in
    match build_prompt lib balance_sheet_processed balance_sheet_ratios with
    | inr prompt => prompt
    | inl _ => ""
    end.

End Sample.

(** * Properties *)

(** ** Lists, floats and the effect monad *)

Lemma filter_head_find {A : Type} (f : A -> bool) (l : list A) :
  hd_error (filter f l) = find f l.
Proof.
  induction l as [|a l IH]; simpl; [reflexivity|].
  destruct (f a); simpl; [reflexivity | exact IH].
Qed.

Lemma find_map {A B : Type} (g : A -> B) (f : B -> bool) (l : list A) :
  find f (map g l) = option_map g (find (fun a => f (g a)) l).
Proof.
  induction l as [|a l IH]; simpl; [reflexivity|].
  destruct (f (g a)); simpl; [reflexivity | exact IH].
Qed.

Lemma find_none_existsb {A : Type} (f : A -> bool) (l : list A) :
  find f l = None <-> existsb f l = false.
Proof.
  induction l as [|a l IH]; simpl; [tauto|].
  destruct (f a); simpl; [split; discriminate | exact IH].
Qed.


Lemma or_eps_zero (x : float) : PrimFloat.eqb x 0 = true -> or_eps x = EPS.
Proof. intros E. unfold or_eps, nonzero. rewrite E. reflexivity. Qed.

Lemma or_eps_keep (x : float) : PrimFloat.eqb x 0 = false -> or_eps x = x.
Proof. intros E. unfold or_eps, nonzero. rewrite E. reflexivity. Qed.


Lemma fillna0_not_nan (x : float) : PrimFloat.is_nan (fillna0 x) = false.
Proof.
  unfold fillna0. destruct (PrimFloat.is_nan x) eqn:E; [reflexivity | exact E].
Qed.

(** *** The float64 value of an integer is never a NaN *)

Lemma SFeqb_refl (s : spec_float) : s <> S754_nan -> SFeqb s s = true.
Proof.
  destruct s as [sz|si| |sf m e]; intros H; try reflexivity;
    try (destruct si; reflexivity); [contradiction H; reflexivity|].
  unfold SFeqb, SFcompare. rewrite Z.compare_refl.
  assert (Hm : Pos.compare_cont Eq m m = Eq) by apply Pos.compare_refl.
  rewrite Hm. destruct sf; reflexivity.
Qed.

Lemma is_nan_Prim2SF (x : float) :
  PrimFloat.is_nan x = false <-> Prim2SF x <> S754_nan.
Proof.
  unfold PrimFloat.is_nan. rewrite FloatAxioms.eqb_spec. split.
  - intros H E. rewrite E in H. discriminate.
  - intros H. rewrite (SFeqb_refl _ H). reflexivity.
Qed.

Lemma shr_1_nonneg (r : shr_record) :
  (0 <= shr_m r)%Z -> (0 <= shr_m (shr_1 r))%Z.
Proof.
  destruct r as [m b s]. simpl.
  destruct m as [|p|p]; [intros _; simpl; lia| |intros H; lia].
  intros _. destruct p; simpl; lia.
Qed.

Lemma iter_shr_1_nonneg (p : positive) (r : shr_record) :
  (0 <= shr_m r)%Z -> (0 <= shr_m (SpecFloat.iter_pos shr_1 p r))%Z.
Proof.
  revert r. induction p as [p IH|p IH|]; intros r H; simpl.
  - apply IH, IH, shr_1_nonneg, H.
  - apply IH, IH, H.
  - apply shr_1_nonneg, H.
Qed.

Lemma shr_fexp_nonneg (prec emax m e : Z) (l : location) :
  (0 <= m)%Z -> (0 <= shr_m (fst (shr_fexp prec emax m e l)))%Z.
Proof.
  intros H. unfold shr_fexp, shr.
  assert (H0 : (0 <= shr_m (shr_record_of_loc m l))%Z).
  { destruct l as [|[]]; exact H. }
  destruct (fexp prec emax (Zdigits2 m + e) - e)%Z; simpl; try exact H0.
  apply iter_shr_1_nonneg, H0.
Qed.

Lemma round_nearest_even_nonneg (m : Z) (l : location) :
  (0 <= m)%Z -> (0 <= round_nearest_even m l)%Z.
Proof.
  intros H. unfold round_nearest_even.
  destruct l as [|[]]; try lia. destruct (Z.even m); lia.
Qed.

Lemma binary_round_aux_not_nan (prec emax : Z) (sx : bool) (mx ex : Z)
      (lx : location) :
  (0 <= mx)%Z -> binary_round_aux prec emax sx mx ex lx <> S754_nan.
Proof.
  intros H. unfold binary_round_aux.
  pose proof (shr_fexp_nonneg prec emax mx ex lx H) as H1.
  destruct (shr_fexp prec emax mx ex lx) as [mrs' e']. simpl in H1.
  pose proof (shr_fexp_nonneg prec emax _ e' loc_Exact
                (round_nearest_even_nonneg _ (loc_of_shr_record mrs') H1))
    as H2.
  destruct (shr_fexp prec emax _ e' loc_Exact) as [mrs'' e'']. simpl in H2.
  destruct (shr_m mrs'') as [|p|p]; [discriminate| |lia].
  destruct (e'' <=? emax - prec)%Z; discriminate.
Qed.

Lemma binary_normalize_not_nan (prec emax m e : Z) (sz : bool) :
  binary_normalize prec emax m e sz <> S754_nan.
Proof.
  unfold binary_normalize, binary_round.
  destruct m as [|p|p]; [discriminate| |];
    destruct (shl_align _ _ _) as [mz ez];
    apply binary_round_aux_not_nan; lia.
Qed.

Lemma of_uint63_not_nan (n : int) :
  PrimFloat.is_nan (PrimFloat.of_uint63 n) = false.
Proof.
  apply is_nan_Prim2SF. rewrite FloatAxioms.of_uint63_spec.
  apply binary_normalize_not_nan.
Qed.

Lemma opp_not_nan (x : float) :
  PrimFloat.is_nan x = false -> PrimFloat.is_nan (- x)%float = false.
Proof.
  rewrite !is_nan_Prim2SF, FloatAxioms.opp_spec.
  destruct (Prim2SF x); simpl; intros H; try discriminate.
  contradiction H; reflexivity.
Qed.

Lemma float_of_int64_not_nan (z : Z) :
  PrimFloat.is_nan (float_of_int64 z) = false.
Proof.
  unfold float_of_int64.
  destruct (z =? - 2 ^ 63)%Z; [reflexivity|].
  destruct (z <? 0)%Z; [apply opp_not_nan|]; apply of_uint63_not_nan.
Qed.

(** *** An int64 and its float64 value are zero together *)

Lemma shr_1_div2 (r : shr_record) :
  (0 <= shr_m r)%Z -> shr_m (shr_1 r) = (shr_m r / 2)%Z.
Proof.
  destruct r as [m b s]. simpl. destruct m as [|p|p]; intros H.
  - reflexivity.
  - destruct p as [p|p|]; simpl.
    + rewrite Pos2Z.inj_xI. apply Z.div_unique with (r := 1%Z); lia.
    + rewrite Pos2Z.inj_xO. apply Z.div_unique with (r := 0%Z); lia.
    + reflexivity.
  - lia.
Qed.

Lemma iter_shr_1_div (p : positive) (r : shr_record) :
  (0 <= shr_m r)%Z ->
  shr_m (SpecFloat.iter_pos shr_1 p r) = (shr_m r / 2 ^ Zpos p)%Z.
Proof.
  revert r. induction p as [p IH|p IH|]; intros r H; simpl SpecFloat.iter_pos.
  - assert (H1 : (0 <= shr_m (shr_1 r))%Z) by (apply shr_1_nonneg, H).
    assert (H2 : (0 <= shr_m (SpecFloat.iter_pos shr_1 p (shr_1 r)))%Z).
    { rewrite IH by exact H1. apply Z.div_pos; [exact H1|]. apply Z.pow_pos_nonneg; lia. }
    rewrite IH by exact H2. rewrite IH by exact H1. rewrite (shr_1_div2 r H).
    rewrite !Z.div_div by (try apply Z.pow_pos_nonneg; lia).
    f_equal. assert (E : Z.pos p~1 = (1 + Z.pos p + Z.pos p)%Z) by lia.
    rewrite E, !Z.pow_add_r by lia. rewrite Z.pow_1_r. ring.
  - assert (H2 : (0 <= shr_m (SpecFloat.iter_pos shr_1 p r))%Z).
    { rewrite IH by exact H. apply Z.div_pos; [exact H|]. apply Z.pow_pos_nonneg; lia. }
    rewrite IH by exact H2. rewrite IH by exact H.
    rewrite !Z.div_div by (try apply Z.pow_pos_nonneg; lia).
    f_equal. assert (E : Z.pos p~0 = (Z.pos p + Z.pos p)%Z) by lia.
    rewrite E, Z.pow_add_r by lia. reflexivity.
  - rewrite (shr_1_div2 r H). rewrite Z.pow_1_r. reflexivity.
Qed.

Lemma digits2_pos_le (p : positive) :
  (2 ^ (Zpos (digits2_pos p) - 1) <= Zpos p)%Z.
Proof.
  induction p as [p IH|p IH|]; simpl digits2_pos.
  - rewrite Pos2Z.inj_succ. replace (Z.succ (Z.pos (digits2_pos p)) - 1)%Z
      with (1 + (Z.pos (digits2_pos p) - 1))%Z by lia.
    rewrite Z.pow_add_r by lia. rewrite Z.pow_1_r. lia.
  - rewrite Pos2Z.inj_succ. replace (Z.succ (Z.pos (digits2_pos p)) - 1)%Z
      with (1 + (Z.pos (digits2_pos p) - 1))%Z by lia.
    rewrite Z.pow_add_r by lia. rewrite Z.pow_1_r. lia.
  - simpl. lia.
Qed.

(** On binary64, in the range of exponents in which nothing underflows, the
    shift to the format's exponent keeps a positive mantissa positive. *)
Lemma shr_fexp_pos (m e : Z) (l : location) :
  (0 < m)%Z -> (-1000 <= e)%Z ->
  (0 < shr_m (fst (shr_fexp prec emax m e l)))%Z
  /\ (-1000 <= snd (shr_fexp prec emax m e l))%Z.
Proof.
  intros Hm He. destruct m as [|p|p]; try lia.
  unfold shr_fexp, shr, fexp, emin, Zdigits2.
  assert (H0 : shr_m (shr_record_of_loc (Zpos p) l) = Zpos p).
  { destruct l as [|[]]; reflexivity. }
  pose proof (digits2_pos_le p) as Hd.
  set (d := Zpos (digits2_pos p)) in *.
  assert (Hdpos : (1 <= d)%Z) by (unfold d; lia).
  change prec with 53%Z. change emax with 1024%Z.
  rewrite Z.max_l by lia.
  destruct (d + e - 53 - e)%Z as [|q|q] eqn:Hn; cbn [fst snd].
  - rewrite H0. lia.
  - rewrite iter_shr_1_div by (rewrite H0; lia). rewrite H0. split; [|lia].
    apply Z.div_str_pos. split; [apply Z.pow_pos_nonneg; lia|].
    apply Z.le_trans with (2 ^ (d - 1))%Z; [|exact Hd].
    apply Z.pow_le_mono_r; lia.
  - rewrite H0. lia.
Qed.

Lemma round_nearest_even_pos (m : Z) (l : location) :
  (0 < m)%Z -> (0 < round_nearest_even m l)%Z.
Proof.
  intros H. unfold round_nearest_even.
  destruct l as [|[]]; try lia. destruct (Z.even m); lia.
Qed.

Lemma binary_round_aux_nonzero (sx : bool) (mx ex : Z) (lx : location) :
  (0 < mx)%Z -> (-1000 <= ex)%Z ->
  SFnonzero (binary_round_aux prec emax sx mx ex lx).
Proof.
  intros Hm He. unfold binary_round_aux.
  destruct (shr_fexp_pos mx ex lx Hm He) as [H1 E1].
  destruct (shr_fexp prec emax mx ex lx) as [mrs' e']. cbn [fst snd] in H1, E1.
  destruct (shr_fexp_pos _ e' loc_Exact
              (round_nearest_even_pos _ (loc_of_shr_record mrs') H1) E1)
    as [H2 _].
  destruct (shr_fexp prec emax _ e' loc_Exact) as [mrs'' e''].
  cbn [fst] in H2.
  destruct (shr_m mrs'') as [|p|p]; try lia.
  destruct (e'' <=? emax - prec)%Z; exact I.
Qed.

Lemma binary_normalize_nonzero (p : positive) :
  SFnonzero (binary_normalize prec emax (Zpos p) 0 false).
Proof.
  unfold binary_normalize, binary_round, shl_align, fexp, emin.
  change prec with 53%Z. change emax with 1024%Z.
  assert (Hd : (1 <= Zpos (digits2_pos p))%Z) by lia.
  rewrite Z.max_l by lia.
  destruct (Z.pos (digits2_pos p) + 0 - 53 - 0)%Z as [|q|q] eqn:E;
    apply binary_round_aux_nonzero; lia.
Qed.

Lemma SFeqb_nonzero (s : spec_float) (sz : bool) :
  SFnonzero s -> SFeqb s (S754_zero sz) = false.
Proof.
  destruct s as [s|s| |s m e]; intros H; try contradiction H.
  - destruct s; reflexivity.
  - destruct s; reflexivity.
Qed.

Lemma of_uint63_nonzero (n : int) :
  (0 < Uint63.to_Z n)%Z -> SFnonzero (Prim2SF (PrimFloat.of_uint63 n)).
Proof.
  intros H. rewrite FloatAxioms.of_uint63_spec.
  destruct (Uint63.to_Z n) as [|p|p]; try lia.
  apply binary_normalize_nonzero.
Qed.

Lemma eqb_zero_of_nonzero (x : float) :
  SFnonzero (Prim2SF x) -> PrimFloat.eqb x 0 = false.
Proof.
  intros H. rewrite FloatAxioms.eqb_spec.
  change (Prim2SF 0) with (S754_zero false).
  apply SFeqb_nonzero, H.
Qed.

Lemma to_Z_of_Z (z : Z) :
  (0 <= z < 2 ^ 63)%Z -> Uint63.to_Z (Uint63.of_Z z) = z.
Proof.
  intros H. rewrite Uint63.of_Z_spec. apply Z.mod_small.
  change wB with (2 ^ 63)%Z. exact H.
Qed.

(** An int64 is zero exactly when its float64 value compares equal to
    zero. *)
Lemma float_of_int64_zero (z : Z) :
  in_int64 z = true ->
  PrimFloat.eqb (float_of_int64 z) 0 = (z =? 0)%Z.
Proof.
  unfold in_int64. intros H. apply andb_prop in H. destruct H as [Hlo Hhi].
  apply Z.leb_le in Hlo. apply Z.ltb_lt in Hhi.
  unfold float_of_int64.
  destruct (z =? - 2 ^ 63)%Z eqn:E1.
  { apply Z.eqb_eq in E1. subst z. reflexivity. }
  apply Z.eqb_neq in E1.
  destruct (z <? 0)%Z eqn:E2.
  - apply Z.ltb_lt in E2.
    replace (z =? 0)%Z with false by (symmetry; apply Z.eqb_neq; lia).
    apply eqb_zero_of_nonzero. rewrite FloatAxioms.opp_spec.
    assert (Hn : SFnonzero (Prim2SF (PrimFloat.of_uint63 (Uint63.of_Z (- z))))).
    { apply of_uint63_nonzero. rewrite to_Z_of_Z; lia. }
    destruct (Prim2SF (PrimFloat.of_uint63 (Uint63.of_Z (- z))));
      try contradiction Hn; exact I.
  - apply Z.ltb_ge in E2.
    destruct (z =? 0)%Z eqn:E3.
    + apply Z.eqb_eq in E3. subst z. reflexivity.
    + apply Z.eqb_neq in E3. apply eqb_zero_of_nonzero, of_uint63_nonzero.
      rewrite to_Z_of_Z; lia.
Qed.

Lemma str_accessor_error (column : list cell) (e : exn) :
  str_accessor column = inl e -> e = ATTRIBUTE_ERROR.
Proof.
  unfold str_accessor. destruct column as [|c l]; [discriminate|].
  destruct (existsb is_text (c :: l)); [discriminate|].
  intros H. injection H as <-. reflexivity.
Qed.

Section Facts.

Variable L : library.

Lemma with_growth_map (df : list raw_row) :
  with_growth L df = map (coerce_row L df) df.
Proof. reflexivity. Qed.

Lemma coerce_row_label (df : list raw_row) (r : raw_row) :
  g_chi_tieu (coerce_row L df r) = label_cell r.
Proof. reflexivity. Qed.

(** No coerced value is a NaN. *)
Lemma coerce_not_nan (int64 : bool) (c : cell) :
  PrimFloat.is_nan (to_float (coerce L int64 c)) = false.
Proof.
  unfold coerce. destruct (read_number L c) as [[z|x]|]; cbn [to_float].
  - destruct int64; apply float_of_int64_not_nan.
  - apply fillna0_not_nan.
  - reflexivity.
Qed.

Lemma wrap64_range (z : Z) : in_int64 (wrap64 z) = true.
Proof.
  unfold in_int64, wrap64.
  pose proof (Z.mod_pos_bound (z + 2 ^ 63) (2 ^ 64)) as H.
  apply andb_true_intro. split; [apply Z.leb_le | apply Z.ltb_lt]; lia.
Qed.

(** On every coerced entry the test for zero on the float64 value is the
    test for zero on the entry itself. *)
Lemma zero_test_on_float_value (int64 : bool) (c : cell) :
  PrimFloat.eqb (to_float (coerce L int64 c)) 0 = is_zero (coerce L int64 c).
Proof.
  unfold coerce, read_number.
  destruct c as [z|x|s|]; try reflexivity.
  - destruct int64; [|reflexivity].
    apply float_of_int64_zero, wrap64_range.
  - destruct (to_numeric_text L s) as [[z|x]|]; try reflexivity.
    destruct int64; [|reflexivity].
    apply float_of_int64_zero, wrap64_range.
Qed.


(** The first matching row of the coerced table is the coerced first
    matching row of the sheet. *)
Lemma first_growth_row (pats : list string) (df : list raw_row) :
  hd_error (filter (fun r => str_contains L pats (g_chi_tieu r))
                   (with_growth L df))
  = option_map (coerce_row L df) (first_raw L pats df).
Proof.
  rewrite filter_head_find, with_growth_map, find_map. reflexivity.
Qed.



(** A total missing, on a sheet the [.str] accessor takes: the error, and
    no table. *)
Lemma process_financial_data_missing (df : list raw_row) :
  str_accessor (map label_cell df) = inr tt ->
  first_raw L PAT_TONG_TAI_SAN df = None
  \/ first_raw L PAT_TONG_NGUON_VON df = None ->
  process_financial_data L (Frame df)
  = ([st_error MSG_MISSING_TOTALS], inr None).
Proof.
  intros Hs H.
  pose proof (first_growth_row PAT_TONG_TAI_SAN df) as Ha.
  pose proof (first_growth_row PAT_TONG_NGUON_VON df) as Hb.
  unfold process_financial_data.
  rewrite with_growth_map, map_map in *. cbn [coerce_row g_chi_tieu] in *.
  change (map (fun x : raw_row => label_cell x) df) with (map label_cell df).
  rewrite Hs. unfold lift. cbn [bind app].
  destruct (filter _ (map (coerce_row L df) df)) as [|a la].
  - reflexivity.
  - destruct (filter _ (map (coerce_row L df) df)) as [|b lb]; [reflexivity|].
    destruct H as [H|H]; [rewrite H in Ha | rewrite H in Hb]; discriminate.
Qed.


Lemma nth_error_with_growth (df : list raw_row) (i : nat) (r : raw_row) :
  nth_error df i = Some r ->
  nth_error (with_growth L df) i = Some (coerce_row L df r).
Proof.
  intros H. rewrite with_growth_map. apply map_nth_error. exact H.
Qed.

End Facts.

Section ProcessFacts.

Variable L : library.

(** Whenever a table comes back, nothing was shown and it is the coerced
    table with the two share columns added. *)
Lemma process_financial_data_some (df : list raw_row) (rows : list row) :
  snd (process_financial_data L (Frame df)) = inr (Some rows) ->
  process_financial_data L (Frame df) = ([], inr (Some rows))
  /\ exists dt ds : float,
      rows = map (with_shares dt ds) (with_growth L df).
Proof.
  unfold process_financial_data.
  destruct (str_accessor (map g_chi_tieu (with_growth L df))) as [e|[]];
    unfold lift; cbn [bind app]; [discriminate|].
  destruct (filter _ (with_growth L df)) as [|a la]; [discriminate|].
  destruct (filter _ (with_growth L df)) as [|b lb]; [discriminate|].
  cbn. intros H. injection H as <-. split; [reflexivity | eauto].
Qed.

(** Only a table of three columns comes back processed. *)
Lemma process_financial_data_frame (frame : dataframe) (rows : list row) :
  snd (process_financial_data L frame) = inr (Some rows) ->
  exists df : list raw_row, frame = Frame df.
Proof.
  destruct frame as [df|n]; [eauto | discriminate].
Qed.



End ProcessFacts.

(** ** Composition percentages (C1, C10) *)






(** On the balance sheet every product fits, and the shares are the
    percentages of total assets. *)
Example shares_of_balance_sheet :
  forallb (fun r : raw_row =>
             times100_fits
               (coerce_truoc Sample.lib Sample.balance_sheet (truoc_cell r))
             && times100_fits
                  (coerce_sau Sample.lib Sample.balance_sheet (sau_cell r)))
          Sample.balance_sheet = true
  /\ map ty_trong_truoc Sample.balance_sheet_processed
     = [60; 40; 100; 30; 70; 100]%float
  /\ map ty_trong_sau Sample.balance_sheet_processed
     = [75; 25; 100; 0; 100; 100]%float.
Proof. repeat split; vm_compute; reflexivity. Qed.

(** X15: the shares on a column of whole numbers wrap around with the
    product 100 x value: a total-assets value of 1e17 gets the share
    -84.47%, not 100%. *)
Example share_wraps_on_whole_numbers :
  option_map (map ty_trong_truoc)
    (match snd (process_financial_data Sample.lib
                  (Frame [(CText "TỔNG CỘNG TÀI SẢN",
                           CInt 100000000000000000, CInt 1);
                          (CText "TỔNG CỘNG NGUỒN VỐN", CInt 1, CInt 1)])) with
     | inr rows => rows
     | inl _ => None
     end)
  = Some [(-84.467440737095515)%float; 1.0000000000000001e-15%float].
Proof. vm_compute. reflexivity. Qed.



(** ** The run of the script and its outer handlers *)

Lemma main_unfold (L : library) (read_excel : exn + dataframe)
      (secret : exn + option string) (clicked : bool) :
  main L (Some read_excel) secret clicked
  = fst (analyse L read_excel secret clicked)
    ++ match snd (analyse L read_excel secret clicked) with
       | inl e => [st_error (outer_message e)]
       | inr _ => []
       end.
Proof.
  unfold main, outer_message.
  destruct (analyse L read_excel secret clicked) as [t [e|[]]];
    cbn [try_except fst snd].
  - destruct (is_value_error e); reflexivity.
  - symmetry. apply app_nil_r.
Qed.

Lemma analyse_unfold (L : library) (frame : dataframe)
      (secret : exn + option string) (clicked : bool) :
  analyse L (inr frame) secret clicked
  = match process_financial_data L frame with
    | (t, inl e) => (t, inl e)
    | (t, inr None) => (t, inr tt)
    | (t, inr (Some df)) =>
        (t ++ st_subheader "Bảng 1: Phân tích Tăng trưởng & Tỷ trọng"
           :: st_dataframe df
           :: fst (calculate_financial_ratios L df)
           ++ fst (ai_section L df (snd (calculate_financial_ratios L df))
                              secret clicked),
         snd (ai_section L df (snd (calculate_financial_ratios L df))
                         secret clicked))
    end.
Proof.
  unfold analyse, lift. unfold bind at 1. cbn [app].
  destruct (process_financial_data L frame) as [t [e|[df|]]].
  - reflexivity.
  - unfold bind at 1.
    unfold traced, bind, emit. cbn [fst snd].
    destruct (calculate_financial_ratios L df) as [tc r]. cbn [fst snd].
    destruct (ai_section L df r secret clicked) as [ta ra]. reflexivity.
  - cbn. rewrite app_nil_r. reflexivity.
Qed.

(** ** Coercion and growth (C8, C2) *)



(** An unreadable entry makes its column a float64 column, in which the
    entry is 0. *)
Example unreadable_entry_in_totals_only :
  not_a_number Sample.lib CEmpty = true
  /\ is_int64 Sample.lib (map truoc_cell Sample.totals_only) = false
  /\ map nam_truoc Sample.totals_only_processed = [0; 0; 0]%float.
Proof. repeat split. Qed.

(** C2, on the code: the growth of a row is (current - prior) / prior in
    percent with a prior of zero replaced by 1e-9, and it is 5e14, large,
    positive and finite, for prior = 0 and current = 5000; but the
    difference is formed in the number type of the columns, and on two
    columns of whole numbers it wraps around: for prior = -5e18 and
    current = 5e18 the code yields 168.93%, where the claimed quotient is
    -200%, the value the same row gets when the columns are float64. *)
Theorem C2_growth_wraps_on_whole_numbers :
  map tang_truong (Sample.processed Sample.large_whole)
  = [168.93488147419103; 100; 100]%float
  /\ map tang_truong (Sample.processed Sample.large_float)
     = [-200; 99.50248756218906; 100]%float
  /\ (((5000000000000000000 - (-5000000000000000000))
       / (-5000000000000000000)) * 100 = -200)%float
  /\ growth_pct (NInt 0) (NInt 5000) = 500000000000000%float
  /\ growth_pct (NFloat 0) (NFloat 5000) = 500000000000000%float
  /\ PrimFloat.is_finite (growth_pct (NInt 0) (NInt 5000)) = true
  /\ PrimFloat.ltb 1e12 (growth_pct (NInt 0) (NInt 5000)) = true.
Proof. repeat split; vm_compute; reflexivity. Qed.

(** What the growth column holds, row by row: the difference in the type
    of the columns, the quotient over the prior value, or over 1e-9 when
    that value is zero, and the factor 100. *)
Lemma growth_of_row (L : library) (df : list raw_row) (i : nat)
      (label truoc sau : cell) :
  nth_error df i = Some (label, truoc, sau) ->
  let prior := coerce_truoc L df truoc in
  let current := coerce_sau L df sau in
  exists g : growth_row,
    nth_error (with_growth L df) i = Some g
    /\ g_tang_truong g
       = (to_float (difference current prior)
          / (if PrimFloat.eqb (to_float prior) 0 then 1e-9
             else to_float prior) * 100)%float.
Proof.
  intros Hi prior current.
  eexists. split; [apply (nth_error_with_growth L df i _ Hi)|].
  reflexivity.
Qed.

(** ** Missing rows (C3, C4, C5) *)

(** C3, as stated, fails: on a sheet whose labels are numbers no label
    matches the total-assets pattern, yet [process_financial_data] does not
    return [None]: line 55 raises, and the run shows the generic message of
    the outer handler. *)
Lemma C3_numeric_labels_raise :
  first_raw Sample.lib PAT_TONG_TAI_SAN Sample.numeric_labels = None
  /\ process_financial_data Sample.lib (Frame Sample.numeric_labels)
     = ([], inl ATTRIBUTE_ERROR)
  /\ snd (process_financial_data Sample.lib (Frame Sample.numeric_labels))
     <> inr None
  /\ main Sample.lib (Some (inr (Frame Sample.numeric_labels)))
          (inr (Some "valid-key")) true
     = [st_error (MSG_UNEXPECTED ATTRIBUTE_ERROR)].
Proof.
  repeat split; try (vm_compute; reflexivity). vm_compute. discriminate.
Qed.

(** C3, amended: when no label of a three-column table matches the
    total-assets pattern, or none matches the total-liabilities-and-equity
    pattern, and the label column holds a text or the table has no rows,
    [process_financial_data] shows the missing-totals error and returns
    [None], and the run shows that error and nothing else: no table, no
    metric, no chart, no narrative and no request to the endpoint
    follows. *)
Theorem C3_missing_total_stops_run (L : library) (df : list raw_row)
        (secret : exn + option string) (clicked : bool) :
  str_accessor (map label_cell df) = inr tt ->
  first_raw L PAT_TONG_TAI_SAN df = None
  \/ first_raw L PAT_TONG_NGUON_VON df = None ->
  process_financial_data L (Frame df)
  = ([st_error MSG_MISSING_TOTALS], inr None)
  /\ main L (Some (inr (Frame df))) secret clicked
     = [st_error MSG_MISSING_TOTALS]
  /\ existsb renders_or_requests
       (main L (Some (inr (Frame df))) secret clicked)
     = false.
Proof.
  intros Hs H.
  pose proof (process_financial_data_missing L df Hs H) as Hp.
  assert (Hm : main L (Some (inr (Frame df))) secret clicked
               = [st_error MSG_MISSING_TOTALS]).
  { rewrite main_unfold, analyse_unfold, Hp. reflexivity. }
  split; [exact Hp|]. split; [exact Hm|].
  rewrite Hm. reflexivity.
Qed.

Lemma C3_missing_total_stops_run_witness :
  process_financial_data Sample.lib (Frame Sample.no_total_assets)
  = ([st_error MSG_MISSING_TOTALS], inr None)
  /\ main Sample.lib (Some (inr (Frame Sample.no_total_assets)))
          (inr (Some "valid-key")) true
     = [st_error MSG_MISSING_TOTALS]
  /\ existsb renders_or_requests
       (main Sample.lib (Some (inr (Frame Sample.no_total_assets)))
             (inr (Some "valid-key")) true)
     = false.
Proof.
  apply (C3_missing_total_stops_run Sample.lib Sample.no_total_assets
           (inr (Some "valid-key")) true).
  - vm_compute. reflexivity.
  - left. vm_compute. reflexivity.
Defined.

Section RatioFacts.

Variable L : library.

(** A table that came back from [process_financial_data] has a text
    label. *)
Lemma processed_has_text (raw : list raw_row) (df : list row) :
  snd (process_financial_data L (Frame raw)) = inr (Some df) ->
  str_accessor (map chi_tieu df) = inr tt.
Proof.
  unfold process_financial_data.
  destruct (str_accessor (map g_chi_tieu (with_growth L raw))) as [e|[]] eqn:Hs;
    unfold lift; cbn [bind app]; [discriminate|].
  destruct (filter _ (with_growth L raw)) as [|a la]; [discriminate|].
  destruct (filter _ (with_growth L raw)) as [|b lb]; [discriminate|].
  cbn. intros H. injection H as <-. rewrite map_map. exact Hs.
Qed.

(** A table in which a label matches has a text label. *)
Lemma first_row_text (pats : list string) (df : list row) (r : row) :
  first_row L pats df = Some r -> str_accessor (map chi_tieu df) = inr tt.
Proof.
  intros H. destruct (find_some _ _ H) as [Hin Hm].
  assert (Hex : existsb is_text (map chi_tieu df) = true).
  { apply existsb_exists. exists (chi_tieu r). split.
    - apply in_map, Hin.
    - unfold str_contains in Hm. destruct (chi_tieu r); try discriminate.
      reflexivity. }
  unfold str_accessor. destruct (map chi_tieu df); [reflexivity|].
  rewrite Hex. reflexivity.
Qed.

Lemma calculate_financial_ratios_missing (df : list row) :
  str_accessor (map chi_tieu df) = inr tt ->
  first_row L PAT_TSNH df = None \/ first_row L PAT_NO_NH df = None ->
  calculate_financial_ratios L df
  = ([st_warning MSG_MISSING_SHORT_TERM], mk_ratios NA NA).
Proof.
  intros Hs H. unfold first_row in H.
  rewrite <- !filter_head_find in H.
  unfold calculate_financial_ratios, ratios_of. rewrite Hs.
  unfold lift. cbn [bind app].
  destruct (filter _ df) as [|a la]; [reflexivity|].
  destruct (filter _ df) as [|b lb]; [reflexivity|].
  destruct H; discriminate.
Qed.

Lemma calculate_financial_ratios_found (df : list row) (ts no : row) :
  first_row L PAT_TSNH df = Some ts ->
  first_row L PAT_NO_NH df = Some no ->
  calculate_financial_ratios L df
  = ([], mk_ratios (current_ratio (nam_truoc ts) (nam_truoc no))
                   (current_ratio (nam_sau ts) (nam_sau no))).
Proof.
  intros Hts Hno. pose proof (first_row_text _ _ _ Hts) as Hs.
  unfold first_row in Hts, Hno. rewrite <- !filter_head_find in Hts, Hno.
  unfold calculate_financial_ratios, ratios_of. rewrite Hs.
  unfold lift. cbn [bind app].
  destruct (filter _ df) as [|a la]; [discriminate|].
  destruct (filter _ df) as [|b lb]; [discriminate|].
  simpl in Hts, Hno. injection Hts as ->. injection Hno as ->. reflexivity.
Qed.

(** On a table with rows and no text label line 88 raises, and the second
    handler shows its message. *)
Lemma calculate_financial_ratios_raises (df : list row) (e : exn) :
  str_accessor (map chi_tieu df) = inl e ->
  calculate_financial_ratios L df
  = ([st_error (MSG_RATIO_FAILURE e)], mk_ratios NA NA).
Proof.
  intros Hs. pose proof (str_accessor_error _ _ Hs) as ->.
  unfold calculate_financial_ratios, ratios_of. rewrite Hs. reflexivity.
Qed.

Lemma first_row_none_of_no_text (pats : list string) (df : list row)
      (e : exn) :
  str_accessor (map chi_tieu df) = inl e -> first_row L pats df = None.
Proof.
  intros Hs. destruct (first_row L pats df) as [r|] eqn:H; [|reflexivity].
  rewrite (first_row_text _ _ _ H) in Hs. discriminate.
Qed.

Lemma process_financial_data_quiet (df : list raw_row) (rows : list row) :
  snd (process_financial_data L (Frame df)) = inr (Some rows) ->
  process_financial_data L (Frame df) = ([], inr (Some rows)).
Proof.
  intros H. apply (process_financial_data_some L df rows H).
Qed.

Lemma bind_emit {A : Type} (c : call) (k : unit -> ui A) :
  fst (bind (emit c) k) = c :: fst (k tt).
Proof. simpl. destruct (k tt). reflexivity. Qed.

(** The run on a sheet that came back processed. *)
Lemma main_processed (raw : list raw_row) (df : list row)
      (secret : exn + option string) (clicked : bool) :
  snd (process_financial_data L (Frame raw)) = inr (Some df) ->
  main L (Some (inr (Frame raw))) secret clicked
  = st_subheader "Bảng 1: Phân tích Tăng trưởng & Tỷ trọng"
      :: st_dataframe df
      :: fst (calculate_financial_ratios L df)
      ++ fst (ai_section L df (snd (calculate_financial_ratios L df))
                         secret clicked)
      ++ match snd (ai_section L df (snd (calculate_financial_ratios L df))
                               secret clicked) with
         | inl e => [st_error (outer_message e)]
         | inr _ => []
         end.
Proof.
  intros H. rewrite main_unfold, analyse_unfold.
  rewrite (process_financial_data_quiet raw df H). cbn [fst snd app].
  rewrite <- app_assoc. reflexivity.
Qed.

Lemma ai_section_prefix (df : list row) (r : ratios)
      (secret : exn + option string) (clicked : bool) :
  exists rest : list call,
    fst (ai_section L df r secret clicked)
    = st_divider
        :: st_subheader "🤖 Phân tích Chuyên sâu từ Trợ lý AI" :: rest.
Proof.
  unfold ai_section. rewrite !bind_emit. eexists. reflexivity.
Qed.

End RatioFacts.

(** C4: when a processed table has no row matching 'TÀI SẢN NGẮN HẠN' or no
    row matching 'NỢ NGẮN HẠN', [calculate_financial_ratios] returns "N/A"
    for both periods and shows a warning; it does not abort the run: the
    script goes on to the AI section after the warning. *)
Theorem C4_missing_short_term_gives_placeholder (L : library)
        (raw : list raw_row) (df : list row) (secret : exn + option string)
        (clicked : bool) :
  snd (process_financial_data L (Frame raw)) = inr (Some df) ->
  first_row L PAT_TSNH df = None \/ first_row L PAT_NO_NH df = None ->
  calculate_financial_ratios L df
  = ([st_warning MSG_MISSING_SHORT_TERM],
     mk_ratios (RText "N/A") (RText "N/A"))
  /\ exists rest : list call,
      main L (Some (inr (Frame raw))) secret clicked
      = [st_subheader "Bảng 1: Phân tích Tăng trưởng & Tỷ trọng";
         st_dataframe df;
         st_warning MSG_MISSING_SHORT_TERM;
         st_divider;
         st_subheader "🤖 Phân tích Chuyên sâu từ Trợ lý AI"] ++ rest.
Proof.
  intros Hdf Hmiss.
  pose proof (calculate_financial_ratios_missing L df
                (processed_has_text L raw df Hdf) Hmiss) as Hc.
  split; [exact Hc|].
  rewrite (main_processed L raw df secret clicked Hdf), Hc.
  destruct (ai_section_prefix L df (mk_ratios NA NA) secret clicked)
    as [rest' Hai].
  cbn [fst snd]. rewrite Hai. eexists. reflexivity.
Qed.

Lemma C4_missing_short_term_gives_placeholder_witness :
  calculate_financial_ratios Sample.lib Sample.totals_only_processed
  = ([st_warning MSG_MISSING_SHORT_TERM],
     mk_ratios (RText "N/A") (RText "N/A"))
  /\ exists rest : list call,
      main Sample.lib (Some (inr (Frame Sample.totals_only)))
           (inr (Some "valid-key")) true
      = [st_subheader "Bảng 1: Phân tích Tăng trưởng & Tỷ trọng";
         st_dataframe Sample.totals_only_processed;
         st_warning MSG_MISSING_SHORT_TERM;
         st_divider;
         st_subheader "🤖 Phân tích Chuyên sâu từ Trợ lý AI"] ++ rest.
Proof.
  apply (C4_missing_short_term_gives_placeholder Sample.lib
           Sample.totals_only Sample.totals_only_processed
           (inr (Some "valid-key")) true).
  - vm_compute. reflexivity.
  - left. vm_compute. reflexivity.
Defined.

(** C5: when a processed table has a short-term-assets row and a
    short-term-liabilities row, the current ratio of each period is the
    value of the first short-term-assets row divided by the value of the
    first short-term-liabilities row, and it is 0 for a period whose
    short-term-liabilities value is zero; no warning is shown. *)
Theorem C5_current_ratio_per_period (L : library) (df : list row)
        (ts no : row) :
  first_row L PAT_TSNH df = Some ts ->
  first_row L PAT_NO_NH df = Some no ->
  let ratio (a b : float) :=
    if PrimFloat.eqb b 0 then RInt 0 else RFloat (a / b) in
  calculate_financial_ratios L df
  = ([], mk_ratios (ratio (nam_truoc ts) (nam_truoc no))
                   (ratio (nam_sau ts) (nam_sau no))).
Proof.
  intros Hts Hno ratio.
  rewrite (calculate_financial_ratios_found L df ts no Hts Hno).
  unfold current_ratio, nonzero, ratio.
  destruct (PrimFloat.eqb (nam_truoc no) 0), (PrimFloat.eqb (nam_sau no) 0);
    reflexivity.
Qed.

Lemma C5_current_ratio_per_period_witness :
  calculate_financial_ratios Sample.lib Sample.balance_sheet_processed
  = ([], mk_ratios (RFloat 2) (RInt 0)).
Proof.
  apply (C5_current_ratio_per_period Sample.lib
           Sample.balance_sheet_processed
           (mk_row (CText "TÀI SẢN NGẮN HẠN") 60 150 150 60 75)
           (mk_row (CText "NỢ NGẮN HẠN") 30 0 (-100) 30 0));
    vm_compute; reflexivity.
Defined.

(** ** The narrative requester (C6, C7, C9) *)

Lemma invalid_key_message_is_specific (e : exn) :
  MSG_INVALID_KEY <> MSG_AI_FAILURE e.
Proof. unfold MSG_INVALID_KEY, MSG_AI_FAILURE. cbn. discriminate. Qed.

Lemma get_ai_analysis_sent (L : library) (df : list row) (r : ratios)
      (key prompt : string) :
  build_prompt L df r = inr prompt ->
  get_ai_analysis L df r key
  = match generate_content L key MODEL_NAME prompt with
    | inl e =>
        ([genai_generate_content key MODEL_NAME prompt;
          st_error (if is_invalid_argument e
                    then MSG_INVALID_KEY else MSG_AI_FAILURE e)],
         inr None)
    | inr text =>
        ([genai_generate_content key MODEL_NAME prompt], inr (Some text))
    end.
Proof.
  intros Hp. unfold get_ai_analysis, lift. rewrite Hp.
  cbn [bind emit app].
  destruct (generate_content L key MODEL_NAME prompt) as [e|text];
    cbn [bind ret try_except app].
  - unfold ai_handler. destruct (is_invalid_argument e); reflexivity.
  - reflexivity.
Qed.

Lemma get_ai_analysis_unsent (L : library) (df : list row) (r : ratios)
      (key : string) (e : exn) :
  build_prompt L df r = inl e ->
  get_ai_analysis L df r key
  = ([st_error (if is_invalid_argument e
                then MSG_INVALID_KEY else MSG_AI_FAILURE e)],
     inr None).
Proof.
  intros Hp. unfold get_ai_analysis, lift. rewrite Hp.
  cbn [bind try_except app]. unfold ai_handler.
  destruct (is_invalid_argument e); reflexivity.
Qed.

(** C6: when the request fails with an invalid-credential error the
    "invalid key" message is shown, and for every other failure the generic
    message that quotes the exception; the two messages are never equal; in
    both cases [get_ai_analysis] returns [None], having sent exactly one
    request. *)
Theorem C6_two_failure_messages (L : library) (df : list row) (r : ratios)
        (key prompt : string) (e : exn) :
  build_prompt L df r = inr prompt ->
  generate_content L key MODEL_NAME prompt = inl e ->
  get_ai_analysis L df r key
  = ([genai_generate_content key MODEL_NAME prompt;
      st_error (match exn_cls e with
                | InvalidArgument => MSG_INVALID_KEY
                | _ => MSG_AI_FAILURE e
                end)],
     inr None)
  /\ (forall e' : exn, MSG_INVALID_KEY <> MSG_AI_FAILURE e')
  /\ List.length (filter is_request (fst (get_ai_analysis L df r key))) = 1%nat.
Proof.
  intros Hp He.
  rewrite (get_ai_analysis_sent L df r key prompt Hp), He.
  split; [|split].
  - unfold is_invalid_argument. destruct (exn_cls e); reflexivity.
  - exact invalid_key_message_is_specific.
  - reflexivity.
Qed.

Lemma C6_two_failure_messages_witness :
  get_ai_analysis Sample.lib Sample.balance_sheet_processed
                  Sample.balance_sheet_ratios "expired-key"
  = ([genai_generate_content "expired-key" MODEL_NAME
        Sample.balance_sheet_prompt;
      st_error MSG_INVALID_KEY],
     inr None)
  /\ (forall e' : exn, MSG_INVALID_KEY <> MSG_AI_FAILURE e')
  /\ List.length
       (filter is_request
          (fst (get_ai_analysis Sample.lib Sample.balance_sheet_processed
                                Sample.balance_sheet_ratios "expired-key")))
     = 1%nat.
Proof.
  apply (C6_two_failure_messages Sample.lib Sample.balance_sheet_processed
           Sample.balance_sheet_ratios "expired-key"
           Sample.balance_sheet_prompt
           (mk_exn InvalidArgument "400 API key not valid."));
    vm_compute; reflexivity.
Defined.

(** The generic message on an endpoint that cannot be reached. *)
Example get_ai_analysis_offline :
  get_ai_analysis (with_endpoint Sample.lib Sample.offline)
                  Sample.balance_sheet_processed Sample.balance_sheet_ratios
                  "valid-key"
  = ([genai_generate_content "valid-key" MODEL_NAME
        Sample.balance_sheet_prompt;
      st_error
        "⚠️ Đã có lỗi xảy ra khi kết nối đến Gemini AI: 503 Service Unavailable"],
     inr None).
Proof. vm_compute. reflexivity. Qed.

(** The answer on an endpoint that accepts the key. *)
Example get_ai_analysis_answer :
  get_ai_analysis Sample.lib Sample.balance_sheet_processed
                  Sample.balance_sheet_ratios "valid-key"
  = ([genai_generate_content "valid-key" MODEL_NAME
        Sample.balance_sheet_prompt],
     inr (Some "Doanh nghiệp có tình hình tài chính ổn định.")).
Proof. vm_compute. reflexivity. Qed.

Lemma build_prompt_with_endpoint (L : library)
      (endpoint : string -> string -> string -> exn + string)
      (df : list row) (r : ratios) :
  build_prompt (with_endpoint L endpoint) df r = build_prompt L df r.
Proof. reflexivity. Qed.

Lemma prompts_sent_get_ai_analysis (L : library) (df : list row)
      (r : ratios) (key : string) :
  prompts_sent (fst (get_ai_analysis L df r key))
  = match build_prompt L df r with
    | inr prompt => [prompt]
    | inl _ => []
    end.
Proof.
  destruct (build_prompt L df r) as [e|prompt] eqn:Hp.
  - rewrite (get_ai_analysis_unsent L df r key e Hp). reflexivity.
  - rewrite (get_ai_analysis_sent L df r key prompt Hp).
    destruct (generate_content L key MODEL_NAME prompt); reflexivity.
Qed.

(** C7: the prompt is a function of the table and the two ratios alone.
    Two calls of [get_ai_analysis] on the same table and ratios send
    byte-identical prompts, whatever the keys they are given and however
    the endpoint behaves; the prompt sent is the one [build_prompt] yields
    from the table and the ratios. *)
Theorem C7_prompt_is_deterministic (L : library)
        (endpoint1 endpoint2 : string -> string -> string -> exn + string)
        (df : list row) (r : ratios) (key1 key2 : string) :
  build_prompt (with_endpoint L endpoint1) df r
  = build_prompt (with_endpoint L endpoint2) df r
  /\ prompts_sent
       (fst (get_ai_analysis (with_endpoint L endpoint1) df r key1))
     = prompts_sent
         (fst (get_ai_analysis (with_endpoint L endpoint2) df r key2))
  /\ forall prompt : string,
      In prompt
         (prompts_sent
            (fst (get_ai_analysis (with_endpoint L endpoint1) df r key1))) ->
      build_prompt L df r = inr prompt
      /\ exists truoc sau : string,
          format_ratio L (thanh_toan_truoc r) = inr truoc
          /\ format_ratio L (thanh_toan_sau r) = inr sau
          /\ prompt
             = (PROMPT_HEAD ++ to_markdown L (map prompt_columns df)
                ++ PROMPT_RATIO_TRUOC ++ truoc
                ++ PROMPT_RATIO_SAU ++ sau ++ PROMPT_TAIL)%string.
Proof.
  rewrite !prompts_sent_get_ai_analysis, !build_prompt_with_endpoint.
  split; [reflexivity|]. split; [reflexivity|].
  intros prompt Hin.
  destruct (build_prompt L df r) as [e|p] eqn:Hp; [destruct Hin|].
  destruct Hin as [<-|[]]. split; [reflexivity|].
  unfold build_prompt in Hp.
  destruct (format_ratio L (thanh_toan_truoc r)) as [e1|truoc];
    [discriminate|].
  destruct (format_ratio L (thanh_toan_sau r)) as [e2|sau]; [discriminate|].
  injection Hp as <-. exists truoc, sau. repeat split.
Qed.

Lemma get_ai_analysis_placeholder (L : library) (df : list row)
      (key : string) :
  get_ai_analysis L df (mk_ratios NA NA) key
  = ([st_error (MSG_AI_FAILURE FORMAT_ERROR)], inr None).
Proof.
  apply (get_ai_analysis_unsent L df (mk_ratios NA NA) key FORMAT_ERROR).
  reflexivity.
Qed.

Lemma ai_section_no_secrets (L : library) (df : list row) (r : ratios)
      (e : exn) (clicked : bool) :
  ai_section L df r (inl e) clicked = (AI_HEADING, inl e).
Proof. reflexivity. Qed.

Lemma ai_section_placeholder (L : library) (df : list row)
      (secret : option string) (clicked : bool) :
  ai_section L df (mk_ratios NA NA) (inr secret) clicked
  = (st_divider
       :: st_subheader "🤖 Phân tích Chuyên sâu từ Trợ lý AI"
       :: ai_section_without_answer secret clicked
            [st_error (MSG_AI_FAILURE FORMAT_ERROR)],
     inr tt).
Proof.
  unfold ai_section, ai_section_without_answer, lift. cbn [bind emit app].
  destruct secret as [[|a key]|]; [reflexivity| |reflexivity].
  destruct clicked; [|reflexivity].
  cbn [bind emit app]. rewrite get_ai_analysis_placeholder. reflexivity.
Qed.

(** C9: once [calculate_financial_ratios] has returned the "N/A"
    placeholders, every call of [get_ai_analysis] with them fails while the
    prompt is being formatted, before any request is sent: the [ValueError]
    is not an invalid-argument error, so the generic message is shown and
    [None] is returned.  Hence the run of the script on a sheet whose
    processed table lacks a short-term row never sends a request and never
    shows a narrative. *)
Theorem C9_placeholder_blocks_narrative (L : library) (raw : list raw_row)
        (df data_df : list row) (key : string)
        (secret : exn + option string) (clicked : bool) :
  snd (process_financial_data L (Frame raw)) = inr (Some df) ->
  first_row L PAT_TSNH df = None \/ first_row L PAT_NO_NH df = None ->
  let ratios := snd (calculate_financial_ratios L df) in
  ratios = mk_ratios (RText "N/A") (RText "N/A")
  /\ build_prompt L data_df ratios = inl FORMAT_ERROR
  /\ is_invalid_argument FORMAT_ERROR = false
  /\ get_ai_analysis L data_df ratios key
     = ([st_error (MSG_AI_FAILURE FORMAT_ERROR)], inr None)
  /\ main L (Some (inr (Frame raw))) secret clicked
     = [st_subheader "Bảng 1: Phân tích Tăng trưởng & Tỷ trọng";
        st_dataframe df;
        st_warning MSG_MISSING_SHORT_TERM;
        st_divider;
        st_subheader "🤖 Phân tích Chuyên sâu từ Trợ lý AI"]
       ++ match secret with
          | inr key_of_secrets =>
              ai_section_without_answer key_of_secrets clicked
                [st_error (MSG_AI_FAILURE FORMAT_ERROR)]
          | inl e => [st_error (outer_message e)]
          end
  /\ existsb narrative_or_request
       (main L (Some (inr (Frame raw))) secret clicked)
     = false.
Proof.
  intros Hdf Hmiss ratios. subst ratios.
  pose proof (calculate_financial_ratios_missing L df
                (processed_has_text L raw df Hdf) Hmiss) as Hc.
  rewrite Hc. cbn [snd].
  pose proof (main_processed L raw df secret clicked Hdf) as Hmain.
  rewrite Hc in Hmain. cbn [fst snd] in Hmain.
  split; [reflexivity|]. split; [reflexivity|]. split; [reflexivity|].
  split; [apply get_ai_analysis_placeholder|]. split.
  - rewrite Hmain. destruct secret as [e|s].
    + rewrite ai_section_no_secrets. reflexivity.
    + rewrite ai_section_placeholder. cbn [fst snd app].
      rewrite app_nil_r. reflexivity.
  - rewrite Hmain. destruct secret as [e|s].
    + rewrite ai_section_no_secrets. reflexivity.
    + rewrite ai_section_placeholder. cbn [fst snd app].
      unfold ai_section_without_answer.
      destruct s as [[|a k]|]; [reflexivity| |reflexivity].
      destruct clicked; reflexivity.
Qed.

Lemma C9_placeholder_blocks_narrative_witness :
  let ratios :=
    snd (calculate_financial_ratios Sample.lib Sample.totals_only_processed) in
  ratios = mk_ratios (RText "N/A") (RText "N/A")
  /\ build_prompt Sample.lib Sample.totals_only_processed ratios
     = inl FORMAT_ERROR
  /\ is_invalid_argument FORMAT_ERROR = false
  /\ get_ai_analysis Sample.lib Sample.totals_only_processed ratios
                     "valid-key"
     = ([st_error (MSG_AI_FAILURE FORMAT_ERROR)], inr None)
  /\ main Sample.lib (Some (inr (Frame Sample.totals_only)))
          (inr (Some "valid-key")) true
     = [st_subheader "Bảng 1: Phân tích Tăng trưởng & Tỷ trọng";
        st_dataframe Sample.totals_only_processed;
        st_warning MSG_MISSING_SHORT_TERM;
        st_divider;
        st_subheader "🤖 Phân tích Chuyên sâu từ Trợ lý AI"]
       ++ ai_section_without_answer (Some "valid-key") true
            [st_error (MSG_AI_FAILURE FORMAT_ERROR)]
  /\ existsb narrative_or_request
       (main Sample.lib (Some (inr (Frame Sample.totals_only)))
             (inr (Some "valid-key")) true)
     = false.
Proof.
  apply (C9_placeholder_blocks_narrative Sample.lib Sample.totals_only
           Sample.totals_only_processed Sample.totals_only_processed
           "valid-key" (inr (Some "valid-key")) true).
  - vm_compute. reflexivity.
  - left. vm_compute. reflexivity.
Defined.

(** With both short-term rows present and an accepted key, the same run
    does send the request and show the narrative. *)
Example main_shows_narrative :
  existsb narrative_or_request
    (main Sample.lib (Some (inr (Frame Sample.balance_sheet)))
          (inr (Some "valid-key")) true)
  = true.
Proof. vm_compute. reflexivity. Qed.

(** * Further properties of the script *)

(** ** The effect monad *)

Lemma bind_unfold {A B : Type} (m : ui A) (k : A -> ui B) :
  bind m k
  = match snd m with
    | inl e => (fst m, inl e)
    | inr x => (fst m ++ fst (k x), snd (k x))
    end.
Proof.
  destruct m as [t [e|x]]; simpl; [reflexivity|].
  destruct (k x). reflexivity.
Qed.

Lemma returns_bind {A B : Type} (m : ui A) (k : A -> ui B) :
  returns m -> (forall x, returns (k x)) -> returns (bind m k).
Proof.
  intros [x Hx] Hk. rewrite bind_unfold, Hx. exact (Hk x).
Qed.

Lemma returns_emit (c : call) : returns (emit c).
Proof. exists tt. reflexivity. Qed.

Lemma returns_ret {A : Type} (x : A) : returns (ret x).
Proof. exists x. reflexivity. Qed.

Lemma returns_lift {A : Type} (x : A) : returns (lift (inr x)).
Proof. exists x. reflexivity. Qed.

Lemma requests_app (t t' : list call) :
  requests (t ++ t') = requests t ++ requests t'.
Proof. apply filter_app. Qed.

Lemma silent_bind {A B : Type} (m : ui A) (k : A -> ui B) :
  silent m -> (forall x, silent (k x)) -> silent (bind m k).
Proof.
  unfold silent. intros Hm Hk. rewrite bind_unfold.
  destruct (snd m) as [e|x]; cbn [fst]; [exact Hm|].
  rewrite requests_app, Hm, Hk. reflexivity.
Qed.

Lemma silent_emit (c : call) : is_request c = false -> silent (emit c).
Proof. intros H. unfold silent, requests. simpl. rewrite H. reflexivity. Qed.

Lemma silent_lift {A : Type} (r : exn + A) : silent (lift r).
Proof. reflexivity. Qed.

Lemma silent_try_except {A : Type} (m : ui A) (handles : exn -> bool)
      (handler : exn -> ui A) :
  silent m -> (forall e, silent (handler e)) ->
  silent (try_except m handles handler).
Proof.
  unfold silent. intros Hm Hh. destruct m as [t [e|x]]; simpl; [|exact Hm].
  destruct (handles e); [|exact Hm].
  specialize (Hh e). destruct (handler e) as [t' r]. simpl in *.
  rewrite requests_app, Hm, Hh. reflexivity.
Qed.

Lemma plain_bind {A B : Type} (m : ui A) (k : A -> ui B) :
  plain m -> (forall x, plain (k x)) -> plain (bind m k).
Proof.
  unfold plain. intros Hm Hk. rewrite bind_unfold.
  destruct (snd m) as [e|x]; cbn [fst]; [exact Hm|].
  rewrite existsb_app, Hm, Hk. reflexivity.
Qed.

(** ** The dashboard block *)

Section DashboardFacts.

Variable L : library.

Ltac step_silent :=
  repeat first
    [ apply silent_bind; [|intros ?]
    | apply silent_emit; reflexivity
    | apply silent_lift
    | apply silent_try_except; [|intros ?] ].

Lemma headline_metrics_silent (df : list row) :
  silent (headline_metrics L df).
Proof. unfold headline_metrics. step_silent. Qed.

Lemma ratio_metrics_silent (df : list row) (r : ratios) :
  silent (ratio_metrics L df r).
Proof. unfold ratio_metrics. step_silent. Qed.

Lemma charts_silent (df : list row) : silent (charts df).
Proof.
  unfold charts. step_silent.
  destruct (filter _ df); apply silent_emit; reflexivity.
Qed.

Lemma dashboard_silent (df : list row) (r : ratios) (text : string) :
  silent (dashboard L df r text).
Proof.
  unfold dashboard.
  apply silent_bind; [apply silent_emit; reflexivity | intros _].
  apply silent_bind; [apply silent_emit; reflexivity | intros _].
  apply silent_bind; [apply headline_metrics_silent | intros _].
  apply silent_bind; [apply ratio_metrics_silent | intros _].
  apply silent_bind; [apply silent_emit; reflexivity | intros _].
  apply silent_bind; [apply silent_emit; reflexivity | intros _].
  apply charts_silent.
Qed.

Lemma iloc0_column_of (pats : list string) (col : row -> float)
      (df : list row) :
  iloc0 (column_of L pats col df)
  = match first_row L pats df with
    | Some r => inr (col r)
    | None =>
        inl (mk_exn IndexError "single positional indexer is out-of-bounds")
    end.
Proof.
  unfold column_of, first_row. rewrite <- filter_head_find.
  destruct (filter _ df); reflexivity.
Qed.

Lemma headline_metrics_returns (df : list row) :
  str_accessor (map chi_tieu df) = inr tt ->
  returns (headline_metrics L df).
Proof.
  intros Hs. unfold headline_metrics. rewrite Hs, !iloc0_column_of.
  destruct (first_row L PAT_TONG_TAI_SAN df);
    [|exists tt; reflexivity].
  destruct (first_row L ["Doanh thu bán hàng"] df);
    [|exists tt; reflexivity].
  destruct (first_row L ["Lợi nhuận sau thuế"] df);
    exists tt; reflexivity.
Qed.

Lemma charts_returns (df : list row) : returns (charts df).
Proof.
  unfold charts.
  repeat first [ apply returns_bind; [|intros ?] | apply returns_emit ].
  destruct (filter _ df); apply returns_emit.
Qed.

Lemma ratio_metrics_returns (df : list row) (r : ratios) (ts : row)
      (hh : string) :
  first_row L PAT_TSNH df = Some ts ->
  format_ratio L (thanh_toan_sau r) = inr hh ->
  returns (ratio_metrics L df r).
Proof.
  intros Hts Hhh. unfold ratio_metrics.
  rewrite (first_row_text L _ _ _ Hts), iloc0_column_of, Hts, Hhh.
  repeat first [ apply returns_bind; [|intros ?]
               | apply returns_emit | apply returns_lift ].
Qed.

Lemma dashboard_returns (df : list row) (r : ratios) (text : string)
      (ts : row) (hh : string) :
  first_row L PAT_TSNH df = Some ts ->
  format_ratio L (thanh_toan_sau r) = inr hh ->
  returns (dashboard L df r text).
Proof.
  intros Hts Hhh. unfold dashboard.
  apply returns_bind; [apply returns_emit | intros _].
  apply returns_bind; [apply returns_emit | intros _].
  apply returns_bind;
    [apply headline_metrics_returns, (first_row_text L _ _ _ Hts)
    | intros _].
  apply returns_bind;
    [apply (ratio_metrics_returns df r ts hh Hts Hhh) | intros _].
  apply returns_bind; [apply returns_emit | intros _].
  apply returns_bind; [apply returns_emit | intros _].
  apply charts_returns.
Qed.

End DashboardFacts.

(** ** The AI section and the run of the script *)

Section ScriptFacts.

Variable L : library.

Lemma format_ratio_current_ratio (a b : float) :
  exists s : string, format_ratio L (current_ratio a b) = inr s.
Proof.
  unfold current_ratio. destruct (nonzero b); eexists; reflexivity.
Qed.

Lemma build_prompt_formats (df : list row) (r : ratios) (prompt : string) :
  build_prompt L df r = inr prompt ->
  exists truoc sau : string,
    format_ratio L (thanh_toan_truoc r) = inr truoc
    /\ format_ratio L (thanh_toan_sau r) = inr sau.
Proof.
  unfold build_prompt.
  destruct (format_ratio L (thanh_toan_truoc r)) as [e|truoc]; [discriminate|].
  destruct (format_ratio L (thanh_toan_sau r)) as [e|sau]; [discriminate|].
  intros _. exists truoc, sau. split; reflexivity.
Qed.

(** The three outcomes of [calculate_financial_ratios]. *)
Lemma calculate_financial_ratios_cases (df : list row) :
  (exists ts no : row,
      first_row L PAT_TSNH df = Some ts
      /\ first_row L PAT_NO_NH df = Some no
      /\ calculate_financial_ratios L df
         = ([], mk_ratios (current_ratio (nam_truoc ts) (nam_truoc no))
                          (current_ratio (nam_sau ts) (nam_sau no))))
  \/ ((first_row L PAT_TSNH df = None \/ first_row L PAT_NO_NH df = None)
      /\ (calculate_financial_ratios L df
          = ([st_warning MSG_MISSING_SHORT_TERM], mk_ratios NA NA)
          \/ calculate_financial_ratios L df
             = ([st_error (MSG_RATIO_FAILURE ATTRIBUTE_ERROR)],
                mk_ratios NA NA))).
Proof.
  destruct (str_accessor (map chi_tieu df)) as [e|[]] eqn:Hs.
  - right. split.
    + left. apply (first_row_none_of_no_text L _ _ _ Hs).
    + right. pose proof (str_accessor_error _ _ Hs) as He. subst e.
      apply (calculate_financial_ratios_raises L df _ Hs).
  - destruct (first_row L PAT_TSNH df) as [ts|] eqn:Hts;
      [destruct (first_row L PAT_NO_NH df) as [no|] eqn:Hno|].
    + left. exists ts, no. repeat split.
      apply calculate_financial_ratios_found; assumption.
    + right. split; [right; reflexivity|]. left.
      apply (calculate_financial_ratios_missing L df Hs). right. exact Hno.
    + right. split; [left; reflexivity|]. left.
      apply (calculate_financial_ratios_missing L df Hs). left. exact Hts.
Qed.

Lemma get_ai_analysis_eq (df : list row) (r : ratios) (key : string) :
  get_ai_analysis L df r key
  = match build_prompt L df r with
    | inl e => ([st_error (ai_failure_message e)], inr None)
    | inr prompt =>
        match generate_content L key MODEL_NAME prompt with
        | inl e =>
            ([genai_generate_content key MODEL_NAME prompt;
              st_error (ai_failure_message e)], inr None)
        | inr text =>
            ([genai_generate_content key MODEL_NAME prompt],
             inr (Some text))
        end
    end.
Proof.
  destruct (build_prompt L df r) as [e|prompt] eqn:Hp.
  - apply (get_ai_analysis_unsent L df r key e Hp).
  - apply (get_ai_analysis_sent L df r key prompt Hp).
Qed.

(** The AI section, case by case. *)
Lemma ai_section_eq (df : list row) (r : ratios)
      (secret : exn + option string) (clicked : bool) :
  ai_section L df r secret clicked
  = match secret with
    | inl e => (AI_HEADING, inl e)
    | inr (Some (String a k)) =>
        if clicked then
          match build_prompt L df r with
          | inl e =>
              (AI_HEADING ++ AI_BUTTON ++ [st_error (ai_failure_message e)],
               inr tt)
          | inr prompt =>
              let request :=
                genai_generate_content (String a k) MODEL_NAME prompt in
              match generate_content L (String a k) MODEL_NAME prompt with
              | inl e =>
                  (AI_HEADING ++ AI_BUTTON
                   ++ [request; st_error (ai_failure_message e)], inr tt)
              | inr EmptyString =>
                  (AI_HEADING ++ AI_BUTTON ++ [request], inr tt)
              | inr (String c t) =>
                  (AI_HEADING ++ AI_BUTTON ++ request
                     :: fst (dashboard L df r (String c t)),
                   snd (dashboard L df r (String c t)))
              end
          end
        else
          (AI_HEADING ++ [st_button "Yêu cầu AI phân tích ngay!"], inr tt)
    | inr _ => (AI_HEADING ++ [st_error MSG_NO_KEY], inr tt)
    end.
Proof.
  destruct secret as [e|secret]; [reflexivity|].
  unfold ai_section, lift. cbn [bind emit app].
  destruct secret as [[|a k]|]; [reflexivity| |reflexivity].
  destruct clicked; [|reflexivity].
  cbn [bind emit app]. rewrite get_ai_analysis_eq.
  destruct (build_prompt L df r) as [e|prompt]; [reflexivity|].
  destruct (generate_content L (String a k) MODEL_NAME prompt)
    as [e|[|c t]]; [reflexivity|reflexivity|].
  cbn [bind emit app fst snd AI_HEADING AI_BUTTON].
  destruct (dashboard L df r (String c t)) as [td rd]. reflexivity.
Qed.

End ScriptFacts.

Section RunFacts.

Variable L : library.

(** The three ways [process_financial_data] ends. *)
Lemma process_financial_data_cases (frame : dataframe) :
  (exists e : exn, process_financial_data L frame = ([], inl e))
  \/ process_financial_data L frame = ([st_error MSG_MISSING_TOTALS], inr None)
  \/ (exists rows : list row,
        process_financial_data L frame = ([], inr (Some rows))).
Proof.
  destruct frame as [df|n]; [|left; eexists; reflexivity].
  unfold process_financial_data.
  destruct (str_accessor (map g_chi_tieu (with_growth L df))) as [e|[]];
    unfold lift; cbn [bind app]; [left; eexists; reflexivity|].
  destruct (filter _ (with_growth L df)) as [|a la];
    [right; left; reflexivity|].
  destruct (filter _ (with_growth L df)) as [|b lb];
    [right; left; reflexivity|].
  right. right. eexists. reflexivity.
Qed.

Lemma prompt_needs_short_term_rows (df data_df : list row)
      (prompt : string) :
  build_prompt L data_df (snd (calculate_financial_ratios L df)) = inr prompt ->
  exists ts no : row,
    first_row L PAT_TSNH df = Some ts
    /\ first_row L PAT_NO_NH df = Some no
    /\ calculate_financial_ratios L df
       = ([], mk_ratios (current_ratio (nam_truoc ts) (nam_truoc no))
                        (current_ratio (nam_sau ts) (nam_sau no))).
Proof.
  destruct (calculate_financial_ratios_cases L df)
    as [(ts & no & Hts & Hno & Hc)|[_ [Hc|Hc]]]; rewrite Hc.
  - intros _. exists ts, no. repeat split; assumption.
  - discriminate.
  - discriminate.
Qed.

(** The AI section raises only when the secrets cannot be read. *)
Lemma ai_section_returns (df : list row) (secret : exn + option string)
      (clicked : bool) :
  snd (ai_section L df (snd (calculate_financial_ratios L df)) secret clicked)
  = match secret with inl e => inl e | inr _ => inr tt end.
Proof.
  rewrite ai_section_eq.
  destruct secret as [e|[[|a k]|]]; [reflexivity|reflexivity| |reflexivity].
  destruct clicked; [|reflexivity].
  destruct (build_prompt L df (snd (calculate_financial_ratios L df)))
    as [e|prompt] eqn:Hp; [reflexivity|].
  cbv zeta.
  destruct (generate_content L (String a k) MODEL_NAME prompt)
    as [e|[|c t]]; [reflexivity|reflexivity|].
  destruct (prompt_needs_short_term_rows df df prompt Hp)
    as (ts & no & Hts & _ & _).
  destruct (build_prompt_formats L df _ prompt Hp) as (truoc & sau & _ & Hs).
  destruct (dashboard_returns L df _ (String c t) ts sau Hts Hs) as [[] Hd].
  exact Hd.
Qed.

(** How the body of the outer [try] ends on a sheet that was read. *)
Lemma analyse_outcome (frame : dataframe) (secret : exn + option string)
      (clicked : bool) :
  snd (analyse L (inr frame) secret clicked)
  = match snd (process_financial_data L frame) with
    | inl e => inl e
    | inr None => inr tt
    | inr (Some _) => match secret with inl e => inl e | inr _ => inr tt end
    end.
Proof.
  rewrite analyse_unfold.
  destruct (process_financial_data L frame) as [t [e|[df|]]];
    cbn [snd]; [reflexivity| |reflexivity].
  apply ai_section_returns.
Qed.

(** The run on a sheet that was read. *)
Lemma main_eq (frame : dataframe) (secret : exn + option string)
      (clicked : bool) :
  main L (Some (inr frame)) secret clicked
  = match snd (process_financial_data L frame) with
    | inl e => [st_error (outer_message e)]
    | inr None => [st_error MSG_MISSING_TOTALS]
    | inr (Some df) =>
        st_subheader "Bảng 1: Phân tích Tăng trưởng & Tỷ trọng"
          :: st_dataframe df
          :: fst (calculate_financial_ratios L df)
          ++ fst (ai_section L df (snd (calculate_financial_ratios L df))
                             secret clicked)
          ++ match secret with
             | inl e => [st_error (outer_message e)]
             | inr _ => []
             end
    end.
Proof.
  rewrite main_unfold, analyse_outcome, analyse_unfold.
  destruct (process_financial_data_cases frame)
    as [[e ->]|[->|[rows ->]]]; cbn [fst snd app]; [reflexivity|reflexivity|].
  rewrite <- app_assoc. destruct secret; reflexivity.
Qed.

Lemma main_read_error (e : exn) (secret : exn + option string)
      (clicked : bool) :
  main L (Some (inl e)) secret clicked = [st_error (outer_message e)].
Proof.
  unfold outer_message. destruct e as [[] msg]; reflexivity.
Qed.

Lemma calculate_financial_ratios_trace (df : list row) :
  requests (fst (calculate_financial_ratios L df)) = []
  /\ existsb is_dashboard_call (fst (calculate_financial_ratios L df)) = false.
Proof.
  destruct (calculate_financial_ratios_cases L df)
    as [(ts & no & _ & _ & Hc)|[_ [Hc|Hc]]]; rewrite Hc; split; reflexivity.
Qed.

Lemma ai_section_requests (df : list row) (r : ratios)
      (secret : exn + option string) (clicked : bool) :
  requests (fst (ai_section L df r secret clicked))
  = match secret with
    | inr (Some (String a k)) =>
        if clicked then
          match build_prompt L df r with
          | inr prompt =>
              [genai_generate_content (String a k) MODEL_NAME prompt]
          | inl _ => []
          end
        else []
    | _ => []
    end.
Proof.
  rewrite ai_section_eq.
  destruct secret as [e|[[|a k]|]]; [reflexivity|reflexivity| |reflexivity].
  destruct clicked; [|reflexivity].
  destruct (build_prompt L df r) as [e|prompt]; [reflexivity|].
  cbv zeta.
  destruct (generate_content L (String a k) MODEL_NAME prompt)
    as [e|[|c t]]; [reflexivity|reflexivity|].
  cbn [fst]. unfold AI_HEADING, AI_BUTTON. cbn [app].
  unfold requests. cbn [filter is_request].
  fold (requests (fst (dashboard L df r (String c t)))).
  rewrite (dashboard_silent L df r (String c t)). reflexivity.
Qed.

(** The requests of a run, whatever was uploaded. *)
Lemma main_requests (uploaded_file : option (exn + dataframe))
      (secret : exn + option string) (clicked : bool) :
  requests (main L uploaded_file secret clicked)
  = match uploaded_file with
    | Some (inr frame) =>
        match snd (process_financial_data L frame) with
        | inr (Some df) =>
            requests
              (fst (ai_section L df (snd (calculate_financial_ratios L df))
                               secret clicked))
        | _ => []
        end
    | _ => []
    end.
Proof.
  destruct uploaded_file as [[e|frame]|]; [| |reflexivity].
  - rewrite main_read_error. reflexivity.
  - rewrite main_eq.
    destruct (snd (process_financial_data L frame)) as [e|[df|]];
      [reflexivity| |reflexivity].
    unfold requests at 1. cbn [filter is_request].
    fold (requests (fst (calculate_financial_ratios L df)
                    ++ fst (ai_section L df
                              (snd (calculate_financial_ratios L df))
                              secret clicked)
                    ++ match secret with
                       | inl e => [st_error (outer_message e)]
                       | inr _ => []
                       end)).
    rewrite !requests_app.
    destruct (calculate_financial_ratios_trace df) as [-> _].
    destruct secret; cbn [app requests filter is_request];
      [|rewrite app_nil_r]; reflexivity.
Qed.

End RunFacts.

Lemma in_bind_l {A B : Type} (m : ui A) (k : A -> ui B) (c : call) :
  In c (fst m) -> In c (fst (bind m k)).
Proof.
  intros H. rewrite bind_unfold. destruct (snd m); cbn [fst]; [exact H|].
  apply in_or_app. left. exact H.
Qed.

Lemma in_bind_r {A B : Type} (m : ui A) (k : A -> ui B) (c : call) (x : A) :
  snd m = inr x -> In c (fst (k x)) -> In c (fst (bind m k)).
Proof.
  intros Hx H. rewrite bind_unfold, Hx. cbn [fst].
  apply in_or_app. right. exact H.
Qed.

Lemma dashboard_shows_answer (L : library) (df : list row) (r : ratios)
      (text : string) (ts : row) (hh : string) :
  first_row L PAT_TSNH df = Some ts ->
  format_ratio L (thanh_toan_sau r) = inr hh ->
  In (st_markdown text) (fst (dashboard L df r text)).
Proof.
  intros Hts Hhh. unfold dashboard.
  apply (in_bind_r _ _ _ tt); [reflexivity|].
  apply (in_bind_r _ _ _ tt); [reflexivity|].
  destruct (headline_metrics_returns L df (first_row_text L _ _ _ Hts))
    as [[] Hh].
  apply (in_bind_r _ _ _ tt); [exact Hh|].
  destruct (ratio_metrics_returns L df r ts hh Hts Hhh) as [[] Hr].
  apply (in_bind_r _ _ _ tt); [exact Hr|].
  apply (in_bind_r _ _ _ tt); [reflexivity|].
  apply in_bind_l. left. reflexivity.
Qed.

Lemma ai_section_dashboard (L : library) (df : list row) (r : ratios)
      (secret : exn + option string) (clicked : bool) :
  existsb is_dashboard_call (fst (ai_section L df r secret clicked)) = true ->
  exists (key prompt text : string),
    secret = inr (Some key)
    /\ clicked = true
    /\ build_prompt L df r = inr prompt
    /\ generate_content L key MODEL_NAME prompt = inr text
    /\ text <> ""
    /\ fst (ai_section L df r secret clicked)
       = AI_HEADING ++ AI_BUTTON
         ++ genai_generate_content key MODEL_NAME prompt
         :: fst (dashboard L df r text).
Proof.
  rewrite ai_section_eq.
  destruct secret as [e|[[|a k]|]];
    [discriminate|discriminate| |discriminate].
  destruct clicked; [|discriminate].
  destruct (build_prompt L df r) as [e|prompt]; [discriminate|].
  cbv zeta.
  destruct (generate_content L (String a k) MODEL_NAME prompt)
    as [e|[|c t]] eqn:Hg; [discriminate|discriminate|].
  intros _. exists (String a k), prompt, (String c t).
  repeat split; try discriminate. exact Hg.
Qed.

(** ** Properties of the returned table *)

Lemma process_financial_data_keeps_rows_aux (L : library)
      (df : list raw_row) (rows : list row) :
  snd (process_financial_data L (Frame df)) = inr (Some rows) ->
  map chi_tieu rows = map (fun r : raw_row => fst (fst r)) df
  /\ Forall (fun r : row =>
               PrimFloat.is_nan (nam_truoc r) = false
               /\ PrimFloat.is_nan (nam_sau r) = false) rows.
Proof.
  intros H.
  destruct (process_financial_data_some L df rows H) as (_ & dt & ds & ->).
  rewrite with_growth_map, !map_map. split.
  - apply map_ext. intros [[label truoc] sau]. reflexivity.
  - apply Forall_map, Forall_forall. intros [[label truoc] sau] _.
    split; apply coerce_not_nan.
Qed.

(** X1: whenever [process_financial_data] returns a table, it has shown
    nothing, the table has the labels of the sheet in the same order, and
    neither value column of it holds a NaN. *)
Theorem process_financial_data_keeps_rows (L : library) (df : list raw_row)
        (rows : list row) :
  snd (process_financial_data L (Frame df)) = inr (Some rows) ->
  fst (process_financial_data L (Frame df)) = []
  /\ map chi_tieu rows = map (fun r : raw_row => fst (fst r)) df
  /\ Forall (fun r : row =>
               PrimFloat.is_nan (nam_truoc r) = false
               /\ PrimFloat.is_nan (nam_sau r) = false) rows.
Proof.
  intros H. split.
  { rewrite (process_financial_data_quiet L df rows H). reflexivity. }
  apply (process_financial_data_keeps_rows_aux L df rows H).
Qed.

Lemma process_financial_data_keeps_rows_witness :
  fst (process_financial_data Sample.lib (Frame Sample.totals_only)) = []
  /\ map chi_tieu Sample.totals_only_processed
     = map (fun r : raw_row => fst (fst r)) Sample.totals_only
  /\ Forall (fun r : row =>
               PrimFloat.is_nan (nam_truoc r) = false
               /\ PrimFloat.is_nan (nam_sau r) = false)
            Sample.totals_only_processed.
Proof.
  apply (process_financial_data_keeps_rows Sample.lib Sample.totals_only
           Sample.totals_only_processed).
  vm_compute. reflexivity.
Defined.

(** ** Properties of the narrative requester *)

(** X2: with the ratios [calculate_financial_ratios] returns for a table,
    the prompt can be built exactly when the table has both a
    'TÀI SẢN NGẮN HẠN' row and a 'NỢ NGẮN HẠN' row. *)
Theorem prompt_built_iff_short_term_rows (L : library)
        (df data_df : list row) :
  (exists prompt : string,
      build_prompt L data_df (snd (calculate_financial_ratios L df))
      = inr prompt)
  <-> (first_row L PAT_TSNH df <> None /\ first_row L PAT_NO_NH df <> None).
Proof.
  split.
  - intros [prompt Hp].
    destruct (prompt_needs_short_term_rows L df data_df prompt Hp)
      as (ts & no & -> & -> & _).
    split; discriminate.
  - intros [Hts Hno].
    destruct (calculate_financial_ratios_cases L df)
      as [(ts & no & _ & _ & Hc)|[[H|H] _]];
      [|contradiction|contradiction].
    rewrite Hc. cbn [snd]. unfold build_prompt.
    cbn [thanh_toan_truoc thanh_toan_sau].
    destruct (format_ratio_current_ratio L (nam_truoc ts) (nam_truoc no))
      as [s1 ->].
    destruct (format_ratio_current_ratio L (nam_sau ts) (nam_sau no))
      as [s2 ->].
    eexists. reflexivity.
Qed.

(** X3: [get_ai_analysis] never raises.  It returns a text exactly when
    the prompt could be built and the endpoint answered it with that text;
    it returns [None] exactly when it has shown an error; and it sends at
    most one request. *)
Theorem get_ai_analysis_answer_or_error (L : library) (df : list row)
        (r : ratios) (key : string) :
  exists res : option string,
    snd (get_ai_analysis L df r key) = inr res
    /\ (res = None
        <-> existsb is_error (fst (get_ai_analysis L df r key)) = true)
    /\ (forall text : string,
           res = Some text
           <-> exists prompt : string,
               build_prompt L df r = inr prompt
               /\ generate_content L key MODEL_NAME prompt = inr text)
    /\ (List.length (requests (fst (get_ai_analysis L df r key))) <= 1)%nat.
Proof.
  rewrite get_ai_analysis_eq.
  destruct (build_prompt L df r) as [e|prompt].
  - exists None. cbn. repeat split; try discriminate; try lia.
    intros (p & Hp & _). discriminate.
  - destruct (generate_content L key MODEL_NAME prompt) as [e|text] eqn:Hg.
    + exists None. cbn. repeat split; try discriminate; try lia.
      intros (p & Hp & Hg'). injection Hp as <-. rewrite Hg in Hg'.
      discriminate.
    + exists (Some text). cbn. repeat split; try discriminate; try lia.
      * intros H. injection H as <-. exists prompt. split; [reflexivity|].
        exact Hg.
      * intros (p & Hp & Hg'). injection Hp as <-. rewrite Hg in Hg'.
        injection Hg' as <-. reflexivity.
Qed.

(** ** Properties of the run *)

(** X4: the three headline tiles are shown together or not at all: when
    the table has a total-assets row, a 'Doanh thu bán hàng' row and a
    'Lợi nhuận sau thuế' row, the three tiles show the following-year
    values of the first such rows; when any of the three is missing, only
    the warning is shown, and no exception leaves the block.  The one
    exception that does leave it is the [AttributeError] of the [.str]
    accessor, on a table that has rows and no text label: nothing is shown
    then. *)
Theorem headline_metrics_all_or_nothing (L : library) (df : list row) :
  headline_metrics L df
  = match str_accessor (map chi_tieu df) with
    | inl e => ([], inl e)
    | inr _ =>
        match first_row L PAT_TONG_TAI_SAN df,
              first_row L ["Doanh thu bán hàng"] df,
              first_row L ["Lợi nhuận sau thuế"] df with
        | Some tts, Some dt, Some ln =>
            ([st_metric "Tổng tài sản (Năm sau)"
                (format_float L ",.0f" (nam_sau tts) ++ " VNĐ");
              st_metric "Doanh thu (Năm sau)"
                (format_float L ",.0f" (nam_sau dt) ++ " VNĐ");
              st_metric "Lợi nhuận sau thuế (Năm sau)"
                (format_float L ",.0f" (nam_sau ln) ++ " VNĐ")],
             inr tt)
        | _, _, _ =>
            ([st_warning
                "Không thể hiển thị đầy đủ dashboard do thiếu một số chỉ tiêu quan trọng."],
             inr tt)
        end
    end.
Proof.
  unfold headline_metrics.
  destruct (str_accessor (map chi_tieu df)) as [e|[]] eqn:Hs.
  - pose proof (str_accessor_error _ _ Hs) as He. subst e. reflexivity.
  - rewrite !iloc0_column_of.
    destruct (first_row L PAT_TONG_TAI_SAN df); [|reflexivity].
    destruct (first_row L ["Doanh thu bán hàng"] df); [|reflexivity].
    destruct (first_row L ["Lợi nhuận sau thuế"] df); reflexivity.
Qed.

(** The processed table of a sheet has a text label, so on it the block
    ends normally. *)
Example headline_metrics_on_totals_only :
  headline_metrics Sample.lib Sample.totals_only_processed
  = ([st_warning
        "Không thể hiển thị đầy đủ dashboard do thiếu một số chỉ tiêu quan trọng."],
     inr tt).
Proof. vm_compute. reflexivity. Qed.


(** The three cases on concrete runs: four columns, numeric labels, and no
    secrets. *)
Example outer_handlers_on_samples :
  main Sample.lib (Some (inr (Misshapen (FourOrMore 0))))
       (inr (Some "valid-key")) true
  = [st_error
       "❌ Lỗi cấu trúc dữ liệu: Length mismatch: Expected axis has 4 elements, new values have 3 elements. Sếp vui lòng kiểm tra lại file Excel."]
  /\ main Sample.lib (Some (inr (Frame Sample.numeric_labels)))
          (inr (Some "valid-key")) true
     = [st_error (MSG_UNEXPECTED ATTRIBUTE_ERROR)]
  /\ main Sample.lib (Some (inr (Frame Sample.totals_only)))
          (inl Sample.no_secrets) true
     = [st_subheader "Bảng 1: Phân tích Tăng trưởng & Tỷ trọng";
        st_dataframe Sample.totals_only_processed;
        st_warning MSG_MISSING_SHORT_TERM;
        st_divider;
        st_subheader "🤖 Phân tích Chuyên sâu từ Trợ lý AI";
        st_error (MSG_UNEXPECTED Sample.no_secrets)].
Proof. repeat split; vm_compute; reflexivity. Qed.

Lemma main_requests_length (L : library)
      (uploaded_file : option (exn + dataframe))
      (secret : exn + option string) (clicked : bool) :
  (List.length (requests (main L uploaded_file secret clicked)) <= 1)%nat.
Proof.
  rewrite main_requests.
  destruct uploaded_file as [[e|frame]|]; [cbn; lia| |cbn; lia].
  destruct (snd (process_financial_data L frame)) as [e|[df|]];
    [cbn; lia| |cbn; lia].
  rewrite ai_section_requests.
  destruct secret as [e|[[|a k]|]]; [cbn; lia|cbn; lia| |cbn; lia].
  destruct clicked; [|cbn; lia].
  destruct (build_prompt L df (snd (calculate_financial_ratios L df)));
    cbn; lia.
Qed.

Lemma main_request_origin (L : library)
      (uploaded_file : option (exn + dataframe))
      (secret : exn + option string) (clicked : bool)
      (key model prompt : string) :
  In (genai_generate_content key model prompt)
     (main L uploaded_file secret clicked) ->
  clicked = true
  /\ secret = inr (Some key)
  /\ key <> ""
  /\ model = MODEL_NAME
  /\ exists (raw : list raw_row) (df : list row),
      uploaded_file = Some (inr (Frame raw))
      /\ snd (process_financial_data L (Frame raw)) = inr (Some df)
      /\ build_prompt L df (snd (calculate_financial_ratios L df))
         = inr prompt.
Proof.
  intros Hc.
  assert (H : In (genai_generate_content key model prompt)
                 (requests (main L uploaded_file secret clicked))).
  { apply filter_In. split; [exact Hc | reflexivity]. }
  clear Hc. rewrite main_requests in H.
  destruct uploaded_file as [[e|frame]|]; [destruct H| |destruct H].
  destruct (snd (process_financial_data L frame)) as [e|[df|]] eqn:Hp;
    [destruct H| |destruct H].
  destruct (process_financial_data_frame L frame df Hp) as [raw ->].
  rewrite ai_section_requests in H.
  destruct secret as [e|[[|a k]|]]; [destruct H|destruct H| |destruct H].
  destruct clicked; [|destruct H].
  destruct (build_prompt L df (snd (calculate_financial_ratios L df)))
    as [e|p] eqn:Hb; [destruct H|].
  destruct H as [Heq|[]]. injection Heq as <- <- <-.
  repeat split; try discriminate.
  exists raw, df. repeat split; assumption.
Qed.

(** X6: a run sends at most one request, and if it sends one then the
    button was clicked, the key is the non-empty secret, the model is
    "gemini-1.5-flash-latest", and the prompt is the one built from the
    table that [process_financial_data] returned for the uploaded sheet and
    the ratios computed from it. *)
Theorem main_sends_at_most_one_request (L : library)
        (uploaded_file : option (exn + dataframe))
        (secret : exn + option string) (clicked : bool) :
  (List.length (requests (main L uploaded_file secret clicked)) <= 1)%nat
  /\ forall key model prompt : string,
      In (genai_generate_content key model prompt)
         (main L uploaded_file secret clicked) ->
      clicked = true
      /\ secret = inr (Some key)
      /\ key <> ""
      /\ model = MODEL_NAME
      /\ exists (raw : list raw_row) (df : list row),
          uploaded_file = Some (inr (Frame raw))
          /\ snd (process_financial_data L (Frame raw)) = inr (Some df)
          /\ build_prompt L df (snd (calculate_financial_ratios L df))
             = inr prompt.
Proof.
  split.
  - apply main_requests_length.
  - intros key model prompt. apply main_request_origin.
Qed.

(** X7: a tile, a chart, the tabs or a narrative is shown only after the
    endpoint has answered: the sheet was read and processed, the button
    was clicked, the secret is the key of the request, and the endpoint
    returned a non-empty text for the prompt built from the table; that
    text is the narrative shown. *)
Theorem dashboard_requires_answer (L : library)
        (uploaded_file : option (exn + dataframe))
        (secret : exn + option string) (clicked : bool) :
  existsb is_dashboard_call (main L uploaded_file secret clicked) = true ->
  exists (raw : list raw_row) (df : list row) (key prompt text : string),
    uploaded_file = Some (inr (Frame raw))
    /\ snd (process_financial_data L (Frame raw)) = inr (Some df)
    /\ secret = inr (Some key)
    /\ clicked = true
    /\ build_prompt L df (snd (calculate_financial_ratios L df)) = inr prompt
    /\ generate_content L key MODEL_NAME prompt = inr text
    /\ text <> ""
    /\ In (st_markdown text) (main L uploaded_file secret clicked).
Proof.
  destruct uploaded_file as [[e|frame]|]; [| |discriminate].
  { rewrite main_read_error. discriminate. }
  rewrite main_eq.
  destruct (snd (process_financial_data L frame)) as [e|[df|]] eqn:Hp;
    [discriminate| |discriminate].
  destruct (process_financial_data_frame L frame df Hp) as [raw ->].
  cbn [existsb is_dashboard_call orb].
  rewrite !existsb_app.
  destruct (calculate_financial_ratios_trace L df) as [_ ->].
  cbn [orb]. intros H.
  assert (Ha : existsb is_dashboard_call
                 (fst (ai_section L df (snd (calculate_financial_ratios L df))
                                  secret clicked)) = true).
  { destruct (existsb is_dashboard_call
                (fst (ai_section L df (snd (calculate_financial_ratios L df))
                                 secret clicked))); [reflexivity|].
    destruct secret; discriminate H. }
  clear H.
  destruct (ai_section_dashboard L df _ secret clicked Ha)
    as (key & prompt & text & -> & -> & Hb & Hg & Ht & Hs).
  exists raw, df, key, prompt, text. repeat split; try assumption.
  right. right. apply in_or_app. right. apply in_or_app. left. rewrite Hs.
  apply in_or_app. right. apply in_or_app. right. right.
  destruct (prompt_needs_short_term_rows L df df prompt Hb)
    as (ts & no & Hts & _ & _).
  destruct (build_prompt_formats L df _ prompt Hb) as (truoc & sau & _ & Hf).
  apply (dashboard_shows_answer L df _ text ts sau Hts Hf).
Qed.

Lemma dashboard_requires_answer_witness :
  exists (raw : list raw_row) (df : list row) (key prompt text : string),
    Some (@inr exn dataframe (Frame Sample.balance_sheet))
    = Some (inr (Frame raw))
    /\ snd (process_financial_data Sample.lib (Frame raw)) = inr (Some df)
    /\ @inr exn (option string) (Some "valid-key") = inr (Some key)
    /\ true = true
    /\ build_prompt Sample.lib df
         (snd (calculate_financial_ratios Sample.lib df)) = inr prompt
    /\ generate_content Sample.lib key MODEL_NAME prompt = inr text
    /\ text <> ""
    /\ In (st_markdown text)
          (main Sample.lib (Some (inr (Frame Sample.balance_sheet)))
                (inr (Some "valid-key")) true).
Proof.
  apply (dashboard_requires_answer Sample.lib
           (Some (inr (Frame Sample.balance_sheet)))
           (inr (Some "valid-key")) true).
  vm_compute. reflexivity.
Defined.

(** X8: an empty answer is dropped without a word: when the endpoint
    answers the request with the empty text, the run shows the table, the
    heading of the AI section, the button and the spinner, sends the
    request, and then shows nothing more: no narrative, no tile, no chart
    and no error. *)
Theorem empty_answer_shows_nothing (L : library) (raw : list raw_row)
        (df : list row) (key prompt : string) :
  snd (process_financial_data L (Frame raw)) = inr (Some df) ->
  key <> "" ->
  build_prompt L df (snd (calculate_financial_ratios L df)) = inr prompt ->
  generate_content L key MODEL_NAME prompt = inr "" ->
  main L (Some (inr (Frame raw))) (inr (Some key)) true
  = [st_subheader "Bảng 1: Phân tích Tăng trưởng & Tỷ trọng";
     st_dataframe df;
     st_divider;
     st_subheader "🤖 Phân tích Chuyên sâu từ Trợ lý AI";
     st_button "Yêu cầu AI phân tích ngay!";
     st_spinner "⏳ Em đang phân tích dữ liệu, Sếp chờ chút nhé...";
     genai_generate_content key MODEL_NAME prompt].
Proof.
  intros Hp Hk Hb Hg.
  rewrite main_eq, Hp, ai_section_eq.
  destruct key as [|a k]; [contradiction Hk; reflexivity|].
  rewrite Hb. cbv zeta. rewrite Hg.
  destruct (prompt_needs_short_term_rows L df df prompt Hb)
    as (ts & no & _ & _ & ->).
  reflexivity.
Qed.

Lemma empty_answer_shows_nothing_witness :
  main (with_endpoint Sample.lib Sample.mute)
       (Some (inr (Frame Sample.balance_sheet))) (inr (Some "valid-key")) true
  = [st_subheader "Bảng 1: Phân tích Tăng trưởng & Tỷ trọng";
     st_dataframe Sample.balance_sheet_processed;
     st_divider;
     st_subheader "🤖 Phân tích Chuyên sâu từ Trợ lý AI";
     st_button "Yêu cầu AI phân tích ngay!";
     st_spinner "⏳ Em đang phân tích dữ liệu, Sếp chờ chút nhé...";
     genai_generate_content "valid-key" MODEL_NAME
       Sample.balance_sheet_prompt].
Proof.
  apply (empty_answer_shows_nothing (with_endpoint Sample.lib Sample.mute)
           Sample.balance_sheet Sample.balance_sheet_processed
           "valid-key" Sample.balance_sheet_prompt).
  - vm_compute. reflexivity.
  - discriminate.
  - vm_compute. reflexivity.
  - reflexivity.
Defined.

(** ** Properties of label matching *)

Section SearchFacts.

Variable lower : codepoint -> codepoint.

Lemma match_here_iff (pat txt : list codepoint) :
  match_here lower pat txt = true
  <-> exists m post : list codepoint,
      txt = m ++ post /\ map lower m = map lower pat.
Proof.
  revert txt. induction pat as [|p pat IH]; intros txt.
  - split; [|destruct txt; reflexivity].
    intros _. exists [], txt. split; reflexivity.
  - destruct txt as [|c txt]; cbn [match_here].
    + split; [discriminate|].
      intros (m & post & Hm & Hl). destruct m; discriminate.
    + rewrite andb_true_iff, N.eqb_eq, IH. split.
      * intros (Hpc & m & post & -> & Hl).
        exists (c :: m), post. split; [reflexivity|].
        cbn [map]. rewrite Hl, Hpc. reflexivity.
      * intros (m & post & Hm & Hl).
        destruct m as [|c' m]; [discriminate|].
        cbn [map app] in Hm, Hl. injection Hm as <- ->.
        injection Hl as Hc Hl. split; [symmetry; exact Hc|].
        exists m, post. split; [reflexivity | exact Hl].
Qed.

Lemma search_iff (pat txt : list codepoint) :
  search lower pat txt = true
  <-> exists pre m post : list codepoint,
      txt = pre ++ m ++ post /\ map lower m = map lower pat.
Proof.
  induction txt as [|c txt IH].
  - cbn [search]. rewrite orb_false_r, match_here_iff. split.
    + intros (m & post & Hm & Hl). exists [], m, post. split; assumption.
    + intros (pre & m & post & Hm & Hl).
      destruct pre; [|discriminate]. exists m, post. split; assumption.
  - cbn [search]. rewrite orb_true_iff, match_here_iff, IH. split.
    + intros [(m & post & Hm & Hl)|(pre & m & post & Hm & Hl)].
      * exists [], m, post. split; assumption.
      * exists (c :: pre), m, post. rewrite Hm. split; [reflexivity|exact Hl].
    + intros (pre & m & post & Hm & Hl). destruct pre as [|c' pre].
      * left. exists m, post. split; assumption.
      * right. cbn [app] in Hm. injection Hm as <- ->.
        exists pre, m, post. split; [reflexivity | exact Hl].
Qed.

Lemma match_here_lower (pat txt txt' : list codepoint) :
  map lower txt = map lower txt' ->
  match_here lower pat txt = match_here lower pat txt'.
Proof.
  revert txt txt'. induction pat as [|p pat IH]; intros txt txt' H.
  - destruct txt, txt'; reflexivity.
  - destruct txt as [|c txt], txt' as [|c' txt']; try discriminate;
      [reflexivity|].
    cbn [map] in H. injection H as Hc Ht. cbn [match_here].
    rewrite Hc, (IH txt txt' Ht). reflexivity.
Qed.

Lemma search_lower (pat txt txt' : list codepoint) :
  map lower txt = map lower txt' ->
  search lower pat txt = search lower pat txt'.
Proof.
  revert txt'. induction txt as [|c txt IH]; intros txt' H.
  - destruct txt'; [reflexivity | discriminate].
  - destruct txt' as [|c' txt']; [discriminate|].
    cbn [search]. rewrite (match_here_lower pat _ _ H).
    cbn [map] in H. injection H as _ Ht. rewrite (IH txt' Ht). reflexivity.
Qed.

End SearchFacts.

(** X9: a text contains a pattern, case ignored, exactly when some run of
    consecutive code points of the text equals the pattern once both are
    lower-cased; the text around the run is arbitrary. *)
Theorem contains_ci_iff_run (lower : codepoint -> codepoint)
        (pat s : string) :
  contains_ci lower pat s = true
  <-> exists pre m post : list codepoint,
      codepoints s = pre ++ m ++ post
      /\ map lower m = map lower (codepoints pat).
Proof. unfold contains_ci. apply search_iff. Qed.

(** X10: label matching sees a label only through its lower-cased code
    points: two labels that are equal once lower-cased match the same
    patterns, so the letter case of a label never decides which rows are
    found. *)
Theorem str_contains_ignores_case (L : library) (pats : list string)
        (s1 s2 : string) :
  map (unicode_lower L) (codepoints s1)
  = map (unicode_lower L) (codepoints s2) ->
  str_contains L pats (CText s1) = str_contains L pats (CText s2).
Proof.
  intros H. unfold str_contains, contains_ci.
  induction pats as [|p pats IH]; [reflexivity|].
  cbn [existsb]. rewrite IH, (search_lower _ _ _ _ H). reflexivity.
Qed.

Lemma str_contains_ignores_case_witness :
  str_contains Sample.lib PAT_TONG_NGUON_VON (CText "Tổng cộng nguồn vốn")
  = str_contains Sample.lib PAT_TONG_NGUON_VON (CText "TỔNG CỘNG NGUỒN VỐN").
Proof.
  apply (str_contains_ignores_case Sample.lib PAT_TONG_NGUON_VON
           "Tổng cộng nguồn vốn" "TỔNG CỘNG NGUỒN VỐN").
  vm_compute. reflexivity.
Defined.

(** ** Composition of the steps *)

Lemma current_ratio_sound (a b : float) :
  PrimFloat.is_nan a = false -> PrimFloat.is_nan b = false ->
  sound_ratio a b (current_ratio a b).
Proof.
  intros Ha Hb. unfold sound_ratio, current_ratio, nonzero.
  destruct (PrimFloat.eqb b 0); [left | right]; repeat split; assumption.
Qed.

(** X11: the ratios computed from a table that [process_financial_data]
    returned are sound in both periods: each is the integer 0 when the
    short-term-liabilities value is zero, and otherwise the quotient of
    two values of which neither is a NaN and the divisor is not zero. *)
Theorem ratios_of_processed_table_sound (L : library) (raw : list raw_row)
        (df : list row) (ts no : row) :
  snd (process_financial_data L (Frame raw)) = inr (Some df) ->
  first_row L PAT_TSNH df = Some ts ->
  first_row L PAT_NO_NH df = Some no ->
  sound_ratio (nam_truoc ts) (nam_truoc no)
              (thanh_toan_truoc (snd (calculate_financial_ratios L df)))
  /\ sound_ratio (nam_sau ts) (nam_sau no)
                 (thanh_toan_sau (snd (calculate_financial_ratios L df))).
Proof.
  intros Hp Hts Hno.
  destruct (process_financial_data_keeps_rows_aux L raw df Hp) as [_ Hnan].
  rewrite Forall_forall in Hnan.
  destruct (find_some _ _ Hts) as [Its _].
  destruct (find_some _ _ Hno) as [Ino _].
  destruct (Hnan ts Its) as [Hts1 Hts2].
  destruct (Hnan no Ino) as [Hno1 Hno2].
  rewrite (calculate_financial_ratios_found L df ts no Hts Hno).
  split; apply current_ratio_sound; assumption.
Qed.

Lemma ratios_of_processed_table_sound_witness :
  sound_ratio 60 30
    (thanh_toan_truoc
       (snd (calculate_financial_ratios Sample.lib
               Sample.balance_sheet_processed)))
  /\ sound_ratio 150 0
       (thanh_toan_sau
          (snd (calculate_financial_ratios Sample.lib
                  Sample.balance_sheet_processed))).
Proof.
  apply (ratios_of_processed_table_sound Sample.lib Sample.balance_sheet
           Sample.balance_sheet_processed
           (mk_row (CText "TÀI SẢN NGẮN HẠN") 60 150 150 60 75)
           (mk_row (CText "NỢ NGẮN HẠN") 30 0 (-100) 30 0));
    vm_compute; reflexivity.
Defined.

(** X12: without a key the run stops before the button.  On a processed
    sheet the run shows the table, what [calculate_financial_ratios]
    showed and the heading of the AI section; then, when the secrets hold
    no 'GEMINI_API_KEY' or an empty one, the missing-key error, and when
    the secrets cannot be read at all (line 208 raises), the message of
    the outer handler that catches the exception.  Nothing else is shown,
    whether or not the button would have been clicked. *)
Theorem missing_key_stops_before_button (L : library) (raw : list raw_row)
        (df : list row) (secret : exn + option string) (clicked : bool) :
  snd (process_financial_data L (Frame raw)) = inr (Some df) ->
  (forall key : string, secret = inr (Some key) -> key = "") ->
  main L (Some (inr (Frame raw))) secret clicked
  = [st_subheader "Bảng 1: Phân tích Tăng trưởng & Tỷ trọng";
     st_dataframe df]
    ++ fst (calculate_financial_ratios L df)
    ++ [st_divider;
        st_subheader "🤖 Phân tích Chuyên sâu từ Trợ lý AI";
        st_error
          match secret with
          | inr _ =>
              "Sếp ơi, chưa có 'GEMINI_API_KEY' trong phần Secrets của Streamlit. Em không thể kết nối với AI được."
          | inl e =>
              if is_value_error e then MSG_STRUCTURE e else MSG_UNEXPECTED e
          end].
Proof.
  intros Hp Hs. rewrite main_eq, Hp, ai_section_eq.
  destruct secret as [e|[key|]]; [reflexivity| |reflexivity].
  rewrite (Hs key eq_refl). reflexivity.
Qed.

Lemma missing_key_stops_before_button_witness :
  main Sample.lib (Some (inr (Frame Sample.totals_only)))
       (inr (Some "")) true
  = [st_subheader "Bảng 1: Phân tích Tăng trưởng & Tỷ trọng";
     st_dataframe Sample.totals_only_processed]
    ++ fst (calculate_financial_ratios Sample.lib
              Sample.totals_only_processed)
    ++ [st_divider;
        st_subheader "🤖 Phân tích Chuyên sâu từ Trợ lý AI";
        st_error
          "Sếp ơi, chưa có 'GEMINI_API_KEY' trong phần Secrets của Streamlit. Em không thể kết nối với AI được."].
Proof.
  apply (missing_key_stops_before_button Sample.lib Sample.totals_only
           Sample.totals_only_processed (inr (Some "")) true).
  - vm_compute. reflexivity.
  - intros key H. injection H as <-. reflexivity.
Defined.

(** X13: until the button is clicked nothing is asked of the endpoint:
    with a key and an unclicked button, the run on a processed sheet shows
    the table, what [calculate_financial_ratios] showed, the heading of the
    AI section and the button, and nothing else. *)
Theorem unclicked_button_shows_only_table (L : library) (raw : list raw_row)
        (df : list row) (key : string) :
  snd (process_financial_data L (Frame raw)) = inr (Some df) ->
  key <> "" ->
  main L (Some (inr (Frame raw))) (inr (Some key)) false
  = [st_subheader "Bảng 1: Phân tích Tăng trưởng & Tỷ trọng";
     st_dataframe df]
    ++ fst (calculate_financial_ratios L df)
    ++ [st_divider;
        st_subheader "🤖 Phân tích Chuyên sâu từ Trợ lý AI";
        st_button "Yêu cầu AI phân tích ngay!"].
Proof.
  intros Hp Hk. rewrite main_eq, Hp, ai_section_eq.
  destruct key as [|a k]; [contradiction Hk; reflexivity | reflexivity].
Qed.

Lemma unclicked_button_shows_only_table_witness :
  main Sample.lib (Some (inr (Frame Sample.balance_sheet)))
       (inr (Some "valid-key")) false
  = [st_subheader "Bảng 1: Phân tích Tăng trưởng & Tỷ trọng";
     st_dataframe Sample.balance_sheet_processed]
    ++ fst (calculate_financial_ratios Sample.lib
              Sample.balance_sheet_processed)
    ++ [st_divider;
        st_subheader "🤖 Phân tích Chuyên sâu từ Trợ lý AI";
        st_button "Yêu cầu AI phân tích ngay!"].
Proof.
  apply (unclicked_button_shows_only_table Sample.lib Sample.balance_sheet
           Sample.balance_sheet_processed "valid-key").
  - vm_compute. reflexivity.
  - discriminate.
Defined.

(** X14: the column 'Tỷ trọng Năm trước (%)' never reaches the endpoint:
    the prompt built from a table does not change when the values of that
    column are replaced by any others. *)
Theorem prompt_ignores_prior_year_share (L : library) (df : list row)
        (r : ratios) (other : row -> float) :
  build_prompt L (map (fun x => with_ty_trong_truoc (other x) x) df) r
  = build_prompt L df r.
Proof.
  unfold build_prompt. rewrite map_map. reflexivity.
Qed.
